(** * Signal scoring and entry lifecycle of the trading dashboard

    A shallow embedding of [backend/calculations/signal_generator.py]
    (class [SignalGenerator]) and [backend/automation/entry_updater.py]
    (class [EntryUpdater]), followed by the properties of the scorer and
    of the entry state machine.

    Conventions of the embedding:
    - a Python [float] is an exact rational ([Q]), so rounding is left
      out; a column that may be NULL, read as [None], is an [option];
    - a Python exception is a [Raise] in the [Result] monad;
    - dictionaries with dynamic keys (the settings, the signals table)
      are [gmap]s; the entry row, whose columns are fixed by the schema,
      is a record;
    - [datetime.now()] is the [now] argument of the processing functions;
      the queries and the writes to the database are taken to succeed. *)

From Stdlib Require Import QArith Qminmax Lqa ZArith String Ascii List Bool.
From stdpp Require Import gmap strings.

Local Open Scope Q_scope.

(** ** Python values and builtins *)

Module Py.

Inductive exn : Set := TypeError | ZeroDivisionError | ValueError.

Inductive Result (A : Type) : Type :=
| Ok (a : A)
| Raise (e : exn).
Arguments Ok {A} a.
Arguments Raise {A} e.

#[global] Instance Result_ret : MRet Result := fun A a => Ok a.
#[global] Instance Result_bind : MBind Result := fun A B k r =>
  match r with
  | Ok a => k a
  | Raise e => Raise e
  end.

(** [try: body / except Exception: return None] around a body that
    itself returns an optional value. *)
Definition try_or_none {A : Type} (body : Result (option A)) : option A :=
  match body with
  | Ok r => r
  | Raise _ => None
  end.

(** [x < y] on floats. *)
Definition Qltb (x y : Q) : bool := negb (Qle_bool y x).

(** [max(a, b)] and [min(a, b)]: the first argument wins ties. *)
Definition max (a b : Q) : Q := if Qltb a b then b else a.
Definition min (a b : Q) : Q := if Qltb b a then b else a.

(** [a / b]. *)
Definition truediv (a b : Q) : Result Q :=
  if Qeq_bool b 0 then Raise ZeroDivisionError else Ok (a / b).

(** A float operand of an arithmetic operator or of a comparison:
    [None] there is a [TypeError]. *)
Definition operand (x : option Q) : Result Q :=
  match x with
  | Some v => Ok v
  | None => Raise TypeError
  end.

(** [float(x) if x else None]: zero is falsy. *)
Definition float_if_truthy (x : option Q) : option Q :=
  match x with
  | Some v => if Qeq_bool v 0 then None else Some v
  | None => None
  end.

(** [x or 0.0]. *)
Definition or_zero (x : option Q) : Q :=
  match x with
  | Some v => if Qeq_bool v 0 then 0.0 else v
  | None => 0.0
  end.

(** [s.endswith(c)] for a one-character [c]. *)
Fixpoint endswith (s : string) (c : ascii) : bool :=
  match s with
  | EmptyString => false
  | String a EmptyString => Ascii.eqb a c
  | String _ rest => endswith rest c
  end.

(** [s[:-1]]. *)
Fixpoint but_last (s : string) : string :=
  match s with
  | EmptyString => EmptyString
  | String _ EmptyString => EmptyString
  | String a rest => String a (but_last rest)
  end.

(** [int(s)] on ASCII text: optional surrounding white space, an
    optional sign, then decimal digits, single underscores allowed
    between digits; anything else is a [ValueError]. *)
Definition is_space (c : ascii) : bool :=
  let n := nat_of_ascii c in
  ((9 <=? n) && (n <=? 13) || (28 <=? n) && (n <=? 32))%nat.

Definition digit_of (c : ascii) : option Z :=
  let n := nat_of_ascii c in
  if ((48 <=? n) && (n <=? 57))%nat then Some (Z.of_nat (n - 48)) else None.

Fixpoint lstrip (s : string) : string :=
  match s with
  | String c rest => if is_space c then lstrip rest else s
  | EmptyString => s
  end.

Fixpoint rstrip (s : string) : string :=
  match s with
  | EmptyString => EmptyString
  | String c rest =>
      match rstrip rest with
      | EmptyString => if is_space c then EmptyString else String c EmptyString
      | kept => String c kept
      end
  end.

Fixpoint digits (acc : Z) (after_digit : bool) (s : string) : option Z :=
  match s with
  | EmptyString => if after_digit then Some acc else None
  | String c rest =>
      match digit_of c with
      | Some d => digits (acc * 10 + d)%Z true rest
      | None =>
          if Ascii.eqb c "_" && after_digit then digits acc false rest else None
      end
  end.

Definition int (s : string) : Result Z :=
  let parsed :=
    match rstrip (lstrip s) with
    | String "-" body => Z.opp <$> digits 0 false body
    | String "+" body => digits 0 false body
    | body => digits 0 false body
    end in
  match parsed with
  | Some n => Ok n
  | None => Raise ValueError
  end.

End Py.

Import Py.

(** ** The vocabulary shared by both components *)

Inductive TfType : Set := Intraday | Swing.

Inductive Signal : Set := A_BUY | BUY | EARLY_BUY | WATCH | CAUTION | SELL.

#[global] Instance TfType_eq_dec : EqDecision TfType.
Proof. solve_decision. Defined.

#[global] Instance Signal_eq_dec : EqDecision Signal.
Proof. solve_decision. Defined.

(** ** [signal_generator.py]: class [SignalGenerator] *)

Module SignalGenerator.

(** [self.settings]: the numeric settings, by key. *)
Definition settings_get (settings : gmap string Q) (key : string) (dflt : Q) : Q :=
  default dflt (settings !! key).

(** The row of [fetch_indicator_data] / [fetch_indicator_data_by_id],
    with the columns the scorer reads. *)
Record IndicatorData : Type := {
  candle_id : Z;
  symbol : string;
  timeframe : string;
  datetime : Z;
  current_price : option Q;
  rsi : option Q;
  macd_line : option Q;
  macd_histogram : option Q;
  ema_44 : option Q;
  ema_100 : option Q;
  ema_200 : option Q;
  bb_position : option string;
  adx : option Q;
  di_plus : option Q;
  di_minus : option Q;
  atr : option Q;
  obv : option Q;
  obv_ma : option Q;
  vwap : option Q;
  volume_signal : option string;
  supertrend_1 : option Q;
  supertrend_2 : option Q
}.

(** The [scores] dictionary of [calculate_score_components]. *)
Record Scores : Type := {
  score_rsi : Q;
  score_macd : Q;
  score_bb : Q;
  score_ema_stack : Q;
  score_supertrend : Q;
  score_vwap : Q;
  score_volume : Q;
  score_adx : Q;
  score_di : Q;
  score_obv : Q
}.

(** [scores.values()], in insertion order. *)
Definition values (scores : Scores) : list Q :=
  [ score_rsi scores; score_macd scores; score_bb scores;
    score_ema_stack scores; score_supertrend scores; score_vwap scores;
    score_volume scores; score_adx scores; score_di scores;
    score_obv scores ].

(** [sum(xs)]. *)
Definition sum (xs : list Q) : Q := fold_left Qplus xs 0.

Definition classify_timeframe (timeframe : string) : Result (TfType * Q) :=
  minutes ←
    (if endswith timeframe "m" then
       int (but_last timeframe)
     else if endswith timeframe "h" then
       n ← int (but_last timeframe); Ok (n * 60)%Z
     else if endswith timeframe "d" || String.eqb timeframe "D" then
       Ok (24 * 60)%Z
     else if endswith timeframe "W" || String.eqb timeframe "W" then
       Ok (7 * 24 * 60)%Z
     else
       Ok 60%Z);
  if (minutes <=? 240)%Z then Ok (Intraday, 36.0) else Ok (Swing, 41.0).

Definition str_is (x : option string) (s : string) : bool :=
  match x with
  | Some v => String.eqb v s
  | None => false
  end.

(** [ema < price if pd.notna(ema) else False]. *)
Definition below_price (level price : option Q) : Result bool :=
  match level with
  | Some l => p ← operand price; Ok (Qltb l p)
  | None => Ok false
  end.

(** [if cond: scores[k] += weight]. *)
Definition add_if (cond : bool) (weight : Q) (score : Q) : Q :=
  if cond then score + weight else score.

Definition calculate_score_components (data : IndicatorData) (tf_type : TfType)
  : Result Scores :=
  let s_rsi :=
    match rsi data with
    | Some rsi =>
        if Qle_bool rsi 30 then 4.5
        else if Qle_bool rsi 40 then 3.0
        else if Qle_bool rsi 50 then 2.0
        else if Qle_bool rsi 60 then 1.0
        else 0.0
    | None => 0.0
    end in
  s_macd ←
    match macd_histogram data with
    | Some histogram =>
        if Qltb 0 histogram then
          macd_line ← operand (macd_line data);
          Ok (if Qltb 0 macd_line then 5.0 else 3.5)
        else Ok 0.0
    | None => Ok 0.0
    end;
  let bb_pos := bb_position data in
  let s_bb :=
    if str_is bb_pos "BB3↓" then 6.0
    else if str_is bb_pos "BB2↓" then 4.0
    else if str_is bb_pos "BB1↓" then 2.0
    else 0.0 in
  ema_44_up ← below_price (ema_44 data) (current_price data);
  ema_100_up ← below_price (ema_100 data) (current_price data);
  ema_200_up ← below_price (ema_200 data) (current_price data);
  let s_ema :=
    match tf_type with
    | Intraday =>
        add_if ema_200_up 1.5 (add_if ema_100_up 2.0 (add_if ema_44_up 2.5 0.0))
    | Swing =>
        add_if ema_44_up 1.0 (add_if ema_100_up 3.0 (add_if ema_200_up 5.0 0.0))
    end in
  let above (level : option Q) : bool :=
    match level, current_price data with
    | Some l, Some p => Qltb l p
    | _, _ => false
    end in
  let st1_up := above (supertrend_1 data) in
  let st2_up := above (supertrend_2 data) in
  let s_st :=
    match tf_type with
    | Intraday => add_if st2_up 2.5 (add_if st1_up 2.5 0.0)
    | Swing => add_if st1_up 1.0 (add_if st2_up 4.0 0.0)
    end in
  s_vwap ←
    match vwap data, current_price data with
    | Some vwap, Some price =>
        let vwap_neutral_zone := 0.005 in
        percent_diff ← truediv (price - vwap) vwap;
        if Qltb vwap_neutral_zone percent_diff then Ok 2.0
        else if Qltb percent_diff (- vwap_neutral_zone) then Ok 0.0
        else Ok 0.0
    | _, _ => Ok 0.0
    end;
  let vol_signal := volume_signal data in
  let s_volume :=
    match tf_type with
    | Intraday =>
        if str_is vol_signal "H" then 2.0
        else if str_is vol_signal "L" then - 1.5
        else 0.0
    | Swing => if str_is vol_signal "H" then 2.0 else 0.0
    end in
  let s_adx :=
    match adx data with
    | Some adx => if Qltb 25 adx then 1.5 else 0.0
    | None => 0.0
    end in
  let s_di :=
    match di_plus data, di_minus data with
    | Some p, Some m => if Qltb m p then 1.0 else 0.0
    | _, _ => 0.0
    end in
  let s_obv :=
    match obv data, obv_ma data with
    | Some o, Some ma => if Qltb ma o then 1.0 else 0.0
    | _, _ => 0.0
    end in
  Ok {| score_rsi := s_rsi; score_macd := s_macd; score_bb := s_bb;
        score_ema_stack := s_ema; score_supertrend := s_st;
        score_vwap := s_vwap; score_volume := s_volume; score_adx := s_adx;
        score_di := s_di; score_obv := s_obv |}.

Definition calculate_price_action_bonus (settings : gmap string Q)
    (current_price : option Q) (support resistance : Q)
    (magic_line : option Q) : Result Q :=
  let max_bonus := settings_get settings "price_action_bonus_points" 2.0 in
  breakout ←
    (if Qltb 0 resistance then
       p ← operand current_price; Ok (Qle_bool (resistance * 1.005) p)
     else Ok false);
  if (breakout : bool) then Ok max_bonus
  else
    bounce ←
      (if Qltb 0 support then
         p ← operand current_price;
         Ok (Qle_bool support p && Qle_bool p (support * 1.02))
       else Ok false);
    if (bounce : bool) then Ok (max_bonus * 0.8)
    else
      match float_if_truthy magic_line with
      | Some ml =>
          if Qltb 0 ml then
            p ← operand current_price;
            Ok (if Qltb ml p && Qle_bool p (ml * 1.02)
                then max_bonus * 0.9 else 0.0)
          else Ok 0.0
      | None => Ok 0.0
      end.

Definition calculate_total_score (scores : Scores) (price_action_bonus : Q)
    (tf_type : TfType) : Q :=
  let total := sum (values scores) + price_action_bonus in
  let max_score := match tf_type with Intraday => 36.0 | Swing => 41.0 end in
  Py.min total max_score.

Definition classify_signal (settings : gmap string Q) (score : Q)
    (tf_type : TfType) (data : IndicatorData) : Signal :=
  let '(aggressive_buy, buy, early_buy, watch, caution) :=
    match tf_type with
    | Intraday =>
        (settings_get settings "intraday_aggressive_buy_threshold" 29.0,
         settings_get settings "intraday_buy_threshold" 23.0,
         settings_get settings "intraday_early_buy_threshold" 18.0,
         settings_get settings "intraday_watch_threshold" 13.0,
         settings_get settings "intraday_caution_threshold" 9.0)
    | Swing =>
        (settings_get settings "swing_aggressive_buy_threshold" 33.0,
         settings_get settings "swing_buy_threshold" 26.0,
         settings_get settings "swing_early_buy_threshold" 21.0,
         settings_get settings "swing_watch_threshold" 15.0,
         settings_get settings "swing_caution_threshold" 10.0)
    end in
  let rsi := match rsi data with Some r => r | None => 50 end in
  let rsi_safe := Qle_bool 30 rsi in
  if Qle_bool aggressive_buy score && rsi_safe then A_BUY
  else if Qle_bool buy score && rsi_safe then BUY
  else if Qle_bool early_buy score then EARLY_BUY
  else if Qle_bool watch score then WATCH
  else if Qle_bool caution score then CAUTION
  else SELL.

(** The storage and the level providers the scorer calls: the two
    indicator queries, [sr_calc.get_effective_sr] (support, resistance)
    and [ml_manager.get_magic_line]. *)
Record Providers : Type := {
  fetch_indicator_data : string -> string -> option IndicatorData;
  fetch_indicator_data_by_id : Z -> option IndicatorData;
  get_effective_sr : string -> string -> Result (Q * Q);
  get_magic_line : string -> Result (option Q)
}.

(** The dictionary returned by [generate_signal]. *)
Record SignalData : Type := {
  sd_candle_id : Z;
  sd_symbol : string;
  sd_timeframe : string;
  sd_datetime : Z;
  sd_tf_type : TfType;
  sd_max_score : Q;
  sd_score_total : Q;
  sd_scores : Scores;
  sd_score_price_action_bonus : Q;
  sd_signal : Signal;
  sd_entry_price : option Q;
  sd_stop_loss : option Q;
  sd_target_price : option Q;
  sd_current_price : option Q;
  sd_support_level : Q;
  sd_resistance_level : Q;
  sd_magic_line_level : Q
}.

Definition is_buy_class (signal : Signal) : bool :=
  match signal with
  | A_BUY | BUY | EARLY_BUY => true
  | _ => false
  end.

(** [if candle_id: ... by id / else: ... latest]: an id of 0 is falsy. *)
Definition fetch (db : Providers) (symbol timeframe : string)
    (candle_id : option Z) : option IndicatorData :=
  match candle_id with
  | Some id =>
      if (id =? 0)%Z then fetch_indicator_data db symbol timeframe
      else fetch_indicator_data_by_id db id
  | None => fetch_indicator_data db symbol timeframe
  end.

(** The body of [generate_signal], inside its [try]. *)
Definition generate_signal_body (db : Providers) (settings : gmap string Q)
    (symbol timeframe : string) (candle_id : option Z)
  : Result (option SignalData) :=
  match fetch db symbol timeframe candle_id with
  | None => Ok None
  | Some data =>
      if bool_decide (rsi data = None) || bool_decide (macd_histogram data = None)
      then Ok None
      else
        let symbol := SignalGenerator.symbol data in
        let timeframe := SignalGenerator.timeframe data in
        '(tf_type, max_score) ← classify_timeframe timeframe;
        '(support, resistance) ← get_effective_sr db symbol timeframe;
        magic_line ← get_magic_line db symbol;
        scores ← calculate_score_components data tf_type;
        let current_price := current_price data in
        price_bonus ← calculate_price_action_bonus settings current_price
                        support resistance magic_line;
        let total_score := calculate_total_score scores price_bonus tf_type in
        let signal := classify_signal settings total_score tf_type data in
        let atr := atr data in
        '(entry_price, stop_loss, target_price) ←
          (if is_buy_class signal then
             let atr_mult := match tf_type with Intraday => 1.2 | Swing => 2.0 end in
             let target_mult := match tf_type with Intraday => 2.0 | Swing => 4.0 end in
             a ← operand atr;
             p ← operand current_price;
             Ok (current_price, Some (p - a * atr_mult), Some (p + a * target_mult))
           else Ok (None, None, None));
        Ok (Some {| sd_candle_id := SignalGenerator.candle_id data;
                    sd_symbol := symbol;
                    sd_timeframe := timeframe;
                    sd_datetime := datetime data;
                    sd_tf_type := tf_type;
                    sd_max_score := max_score;
                    sd_score_total := total_score;
                    sd_scores := scores;
                    sd_score_price_action_bonus := price_bonus;
                    sd_signal := signal;
                    sd_entry_price := entry_price;
                    sd_stop_loss := stop_loss;
                    sd_target_price := target_price;
                    sd_current_price := current_price;
                    sd_support_level := support;
                    sd_resistance_level := resistance;
                    sd_magic_line_level := or_zero magic_line |})
  end.

Definition generate_signal (db : Providers) (settings : gmap string Q)
    (symbol timeframe : string) (candle_id : option Z) : option SignalData :=
  try_or_none (generate_signal_body db settings symbol timeframe candle_id).

(** [store_signal]: the upsert into the signals table, keyed by the
    candle. *)
Definition store_signal (signal_data : SignalData)
    (signals : gmap Z SignalData) : gmap Z SignalData :=
  <[sd_candle_id signal_data := signal_data]> signals.

(** One round of the batch loop ([generate_signals_for_symbols], and
    [SignalRunner.process_symbol_timeframe] with a candle id): generate,
    and store when a signal came back. The count is the number of
    signals generated. *)
Definition generate_and_store (db : Providers) (settings : gmap string Q)
    (symbol timeframe : string) (candle_id : option Z)
    (state : gmap Z SignalData * nat) : gmap Z SignalData * nat :=
  let '(signals, total_generated) := state in
  match generate_signal db settings symbol timeframe candle_id with
  | Some signal_data => (store_signal signal_data signals, S total_generated)
  | None => (signals, total_generated)
  end.

End SignalGenerator.

(** ** [entry_updater.py]: class [EntryUpdater] *)

Module EntryUpdater.

Inductive ValidationStatus : Set := VALIDATING | VALIDATED | INVALID.

Inductive ExitStatus : Set := ACTIVE | EXIT_1 | EXIT_2 | EXIT_3 | EXITED.

(** The values of [exit_reason]; [EXIT3 s] is [f'EXIT3_{s}']. *)
Inductive ExitReason : Set :=
| PRICE_DROP
| CAUTION_SIGNAL
| WATCH_PRICE_DROP
| SELL_SIGNAL
| EXIT3 (current_signal : Signal).

(** A row of [entry_tracking], as [get_active_entries] reads it and
    [update_entry_in_db] writes it back. *)
Record Entry : Type := {
  id : Z;
  symbol : string;
  timeframe : string;
  entry_price : option Q;
  validation_status : ValidationStatus;
  validation_datetime : option Z;
  validation_candles_count : Z;
  exit_status : ExitStatus;
  exit_datetime : option Z;
  exit_price : option Q;
  exit_reason : option ExitReason;
  peak_price : option Q;
  peak_datetime : option Z;
  current_price : option Q;
  current_profit_pct : option Q;
  max_profit_pct : option Q;
  final_profit_pct : option Q;
  exit_1_hit : bool;
  exit_1_datetime : option Z;
  exit_1_price : option Q;
  exit_2_hit : bool;
  exit_2_datetime : option Z;
  exit_2_price : option Q;
  exit_3_hit : bool;
  exit_3_datetime : option Z;
  exit_3_price : option Q;
  trailing_stop_price : option Q;
  trailing_stop_active : bool;
  recovery_attempt : bool;
  recovery_low_price : option Q;
  recovery_datetime : option Z;
  active : bool
}.

(** [entry[key] = v]. Every assignment rebuilds the row from its
    columns, with the one named column replaced. *)
Definition columns (e : Entry) : Entry :=
  {| id := id e;
     symbol := symbol e;
     timeframe := timeframe e;
     entry_price := entry_price e;
     validation_status := validation_status e;
     validation_datetime := validation_datetime e;
     validation_candles_count := validation_candles_count e;
     exit_status := exit_status e;
     exit_datetime := exit_datetime e;
     exit_price := exit_price e;
     exit_reason := exit_reason e;
     peak_price := peak_price e;
     peak_datetime := peak_datetime e;
     current_price := current_price e;
     current_profit_pct := current_profit_pct e;
     max_profit_pct := max_profit_pct e;
     final_profit_pct := final_profit_pct e;
     exit_1_hit := exit_1_hit e;
     exit_1_datetime := exit_1_datetime e;
     exit_1_price := exit_1_price e;
     exit_2_hit := exit_2_hit e;
     exit_2_datetime := exit_2_datetime e;
     exit_2_price := exit_2_price e;
     exit_3_hit := exit_3_hit e;
     exit_3_datetime := exit_3_datetime e;
     exit_3_price := exit_3_price e;
     trailing_stop_price := trailing_stop_price e;
     trailing_stop_active := trailing_stop_active e;
     recovery_attempt := recovery_attempt e;
     recovery_low_price := recovery_low_price e;
     recovery_datetime := recovery_datetime e;
     active := active e |}.

Ltac assign column :=
  let row := eval cbv delta [columns] in columns in
  lazymatch eval pattern column in row with
  | ?rebuild _ =>
      let f := eval cbv beta in (fun v e => rebuild (fun _ => v) e) in
      exact f
  end.

Definition set_validation_status : ValidationStatus -> Entry -> Entry :=
  ltac:(assign validation_status).
Definition set_validation_datetime : option Z -> Entry -> Entry :=
  ltac:(assign validation_datetime).
Definition set_validation_candles_count : Z -> Entry -> Entry :=
  ltac:(assign validation_candles_count).
Definition set_exit_status : ExitStatus -> Entry -> Entry :=
  ltac:(assign exit_status).
Definition set_exit_datetime : option Z -> Entry -> Entry :=
  ltac:(assign exit_datetime).
Definition set_exit_price : option Q -> Entry -> Entry :=
  ltac:(assign exit_price).
Definition set_exit_reason : option ExitReason -> Entry -> Entry :=
  ltac:(assign exit_reason).
Definition set_peak_price : option Q -> Entry -> Entry :=
  ltac:(assign peak_price).
Definition set_peak_datetime : option Z -> Entry -> Entry :=
  ltac:(assign peak_datetime).
Definition set_current_price : option Q -> Entry -> Entry :=
  ltac:(assign current_price).
Definition set_current_profit_pct : option Q -> Entry -> Entry :=
  ltac:(assign current_profit_pct).
Definition set_max_profit_pct : option Q -> Entry -> Entry :=
  ltac:(assign max_profit_pct).
Definition set_final_profit_pct : option Q -> Entry -> Entry :=
  ltac:(assign final_profit_pct).
Definition set_exit_1_hit : bool -> Entry -> Entry :=
  ltac:(assign exit_1_hit).
Definition set_exit_1_datetime : option Z -> Entry -> Entry :=
  ltac:(assign exit_1_datetime).
Definition set_exit_1_price : option Q -> Entry -> Entry :=
  ltac:(assign exit_1_price).
Definition set_exit_2_hit : bool -> Entry -> Entry :=
  ltac:(assign exit_2_hit).
Definition set_exit_2_datetime : option Z -> Entry -> Entry :=
  ltac:(assign exit_2_datetime).
Definition set_exit_2_price : option Q -> Entry -> Entry :=
  ltac:(assign exit_2_price).
Definition set_exit_3_hit : bool -> Entry -> Entry :=
  ltac:(assign exit_3_hit).
Definition set_exit_3_datetime : option Z -> Entry -> Entry :=
  ltac:(assign exit_3_datetime).
Definition set_exit_3_price : option Q -> Entry -> Entry :=
  ltac:(assign exit_3_price).
Definition set_trailing_stop_price : option Q -> Entry -> Entry :=
  ltac:(assign trailing_stop_price).
Definition set_trailing_stop_active : bool -> Entry -> Entry :=
  ltac:(assign trailing_stop_active).
Definition set_recovery_attempt : bool -> Entry -> Entry :=
  ltac:(assign recovery_attempt).
Definition set_recovery_low_price : option Q -> Entry -> Entry :=
  ltac:(assign recovery_low_price).
Definition set_recovery_datetime : option Z -> Entry -> Entry :=
  ltac:(assign recovery_datetime).
Definition set_active : bool -> Entry -> Entry :=
  ltac:(assign active).

Notation "e |> f" := (f e) (at level 45, left associativity, only parsing).

(** The settings of [__init__]. *)
Definition intraday_validation_pct : Q := 1.0.
Definition intraday_invalidation_pct : Q := 1.0.
Definition swing_validation_pct : Q := 1.0.
Definition swing_invalidation_pct : Q := 2.0.
Definition validation_window_bars : Z := 3.

Definition breakeven_threshold : Q := 1.0.
Definition exit1_below_entry : Q := 0.0.
Definition exit2_below_entry : Q := 0.5.
Definition exit3_below_entry : Q := 1.0.

Definition zone3_start : Q := 2.0.
Definition zone3_lock_pct : Q := 50.0.
Definition zone3_exit2_drop : Q := 1.0.
Definition zone3_exit3_drop : Q := 1.0.

Definition zone4_start : Q := 5.0.
Definition zone4_lock_pct : Q := 60.0.
Definition zone4_exit2_drop : Q := 1.5.
Definition zone4_exit3_drop : Q := 1.0.

Definition zone5_start : Q := 10.0.
Definition zone5_lock_pct : Q := 70.0.
Definition zone5_exit1_drop : Q := 2.0.
Definition zone5_exit2_drop : Q := 1.0.
Definition zone5_exit3_drop : Q := 1.0.

Definition classify_timeframe (timeframe : string) : Result TfType :=
  minutes ←
    (if endswith timeframe "m" then
       int (but_last timeframe)
     else if endswith timeframe "h" then
       n ← int (but_last timeframe); Ok (n * 60)%Z
     else if endswith timeframe "d" || String.eqb timeframe "D" then
       Ok 1440%Z
     else
       Ok 60%Z);
  Ok (if (minutes <=? 240)%Z then Intraday else Swing).

Definition calculate_exit_levels (entry_price peak_price : Q)
  : Result (Q * Q * Q) :=
  q ← truediv (peak_price - entry_price) entry_price;
  let peak_profit_pct := q * 100 in
  if Qltb peak_profit_pct breakeven_threshold then
    Ok (0.0, 0.0, 0.0)
  else if Qltb peak_profit_pct zone3_start then
    let exit1 := entry_price * (1 - exit1_below_entry / 100) in
    let exit2 := entry_price * (1 - exit2_below_entry / 100) in
    let exit3 := entry_price * (1 - exit3_below_entry / 100) in
    Ok (exit1, exit2, exit3)
  else if Qltb peak_profit_pct zone4_start then
    let profit_gain := peak_price - entry_price in
    let locked_profit := profit_gain * (zone3_lock_pct / 100) in
    let exit1 := entry_price + locked_profit in
    let exit2 := exit1 * (1 - zone3_exit2_drop / 100) in
    let exit3 := exit2 * (1 - zone3_exit3_drop / 100) in
    Ok (exit1, exit2, exit3)
  else if Qltb peak_profit_pct zone5_start then
    let profit_gain := peak_price - entry_price in
    let locked_profit := profit_gain * (zone4_lock_pct / 100) in
    let exit1 := entry_price + locked_profit in
    let exit2 := exit1 * (1 - zone4_exit2_drop / 100) in
    let exit3 := exit2 * (1 - zone4_exit3_drop / 100) in
    Ok (exit1, exit2, exit3)
  else
    let profit_gain := peak_price - entry_price in
    let locked_profit := profit_gain * (zone5_lock_pct / 100) in
    let exit1_from_lock := entry_price + locked_profit in
    let exit1_from_peak := peak_price * (1 - zone5_exit1_drop / 100) in
    let exit1 := Py.max exit1_from_lock exit1_from_peak in
    let exit2 := exit1 * (1 - zone5_exit2_drop / 100) in
    let exit3 := exit2 * (1 - zone5_exit3_drop / 100) in
    Ok (exit1, exit2, exit3).

(** The seven assignments of a terminal exit taken while validating. *)
Definition invalidate (now : Z) (reason : ExitReason)
    (current_price current_pct : Q) (entry : Entry) : Entry :=
  entry |> set_validation_status INVALID
        |> set_exit_status EXITED
        |> set_exit_reason (Some reason)
        |> set_exit_datetime (Some now)
        |> set_exit_price (Some current_price)
        |> set_final_profit_pct (Some current_pct)
        |> set_active false.

(** The six assignments of a terminal exit of a validated entry. *)
Definition close (now : Z) (reason : ExitReason)
    (current_price current_pct : Q) (entry : Entry) : Entry :=
  entry |> set_exit_status EXITED
        |> set_exit_reason (Some reason)
        |> set_exit_datetime (Some now)
        |> set_exit_price (Some current_price)
        |> set_final_profit_pct (Some current_pct)
        |> set_active false.

(** [if current_price > peak_price: ...], the new peak and the entry. *)
Definition update_peak (now : Z) (peak_price current_price : Q)
    (entry : Entry) : Q * Entry :=
  if Qltb peak_price current_price then
    (current_price,
     entry |> set_peak_price (Some current_price)
           |> set_peak_datetime (Some now))
  else (peak_price, entry).

Definition process_validating_entry (now : Z) (entry : Entry)
    (current_price : Q) (current_signal : Signal) : Result Entry :=
  let entry_price := entry_price entry in
  let peak_price := peak_price entry in
  let validation_candles := validation_candles_count entry in
  tf_type ← classify_timeframe (timeframe entry);
  (* Update peak *)
  peak_price ← operand peak_price;
  let '(peak_price, entry) := update_peak now peak_price current_price entry in
  (* Calculate percentages *)
  entry_price ← operand entry_price;
  q ← truediv (current_price - entry_price) entry_price;
  let current_pct := q * 100 in
  q ← truediv (peak_price - entry_price) entry_price;
  let peak_pct := q * 100 in
  (* Track lowest for invalidation *)
  let entry :=
    match recovery_low_price entry with
    | None => entry |> set_recovery_low_price (Some current_price)
    | Some low =>
        if Qltb current_price low
        then entry |> set_recovery_low_price (Some current_price)
        else entry
    end in
  low ← operand (recovery_low_price entry);
  q ← truediv (low - entry_price) entry_price;
  let lowest_pct := q * 100 in
  (* Get thresholds *)
  let validation_pct :=
    match tf_type with
    | Intraday => intraday_validation_pct
    | Swing => swing_validation_pct
    end in
  let invalidation_pct :=
    match tf_type with
    | Intraday => intraday_invalidation_pct
    | Swing => swing_invalidation_pct
    end in
  let entry :=
    (* Check VALIDATION (reached +1%) *)
    if Qle_bool validation_pct peak_pct then
      entry |> set_validation_status VALIDATED
            |> set_validation_datetime (Some now)
            |> set_exit_status ACTIVE
    (* Check INVALIDATION *)
    else if Qle_bool lowest_pct (- invalidation_pct) then
      invalidate now PRICE_DROP current_price current_pct entry
    else if bool_decide (current_signal = CAUTION) then
      invalidate now CAUTION_SIGNAL current_price current_pct entry
    else if bool_decide (current_signal = WATCH)
            && Qle_bool lowest_pct (- (invalidation_pct * 1.1)) then
      invalidate now WATCH_PRICE_DROP current_price current_pct entry
    else entry in
  (* Update counters *)
  Ok (entry |> set_validation_candles_count (validation_candles + 1)%Z
            |> set_current_price (Some current_price)
            |> set_current_profit_pct (Some current_pct)
            |> set_max_profit_pct
                 (Some (Py.max (or_zero (max_profit_pct entry)) peak_pct))).

(** The steps of [process_validated_entry] after the signal checks, in
    the order of the source. *)

(** [# Store trailing stop (EXIT-1 is the trailing stop)] *)
Definition store_trailing_stop (exit1 : Q) (entry : Entry) : Entry :=
  if Qltb 0 exit1 then
    entry |> set_trailing_stop_price (Some exit1)
          |> set_trailing_stop_active true
  else entry.

(** [# Check EXIT-1] *)
Definition check_exit_1 (now : Z) (exit1 current_price : Q) (entry : Entry)
  : Entry :=
  if Qltb 0 exit1 && Qle_bool current_price exit1 && negb (exit_1_hit entry) then
    entry |> set_exit_1_hit true
          |> set_exit_1_datetime (Some now)
          |> set_exit_1_price (Some current_price)
          |> set_exit_status EXIT_1
  else entry.

(** [# Check EXIT-2] *)
Definition check_exit_2 (now : Z) (exit2 current_price : Q) (entry : Entry)
  : Entry :=
  if Qltb 0 exit2 && Qle_bool current_price exit2 && negb (exit_2_hit entry) then
    entry |> set_exit_2_hit true
          |> set_exit_2_datetime (Some now)
          |> set_exit_2_price (Some current_price)
          |> set_exit_status EXIT_2
  else entry.

(** [# Check EXIT-3] *)
Definition check_exit_3 (now : Z) (exit3 current_price : Q) (entry : Entry)
  : Entry :=
  if Qltb 0 exit3 && Qle_bool current_price exit3 && negb (exit_3_hit entry) then
    entry |> set_exit_3_hit true
          |> set_exit_3_datetime (Some now)
          |> set_exit_3_price (Some current_price)
          |> set_exit_status EXIT_3
  else entry.

(** [# Check RECOVERY (price moving back up)] *)
Definition check_recovery (now : Z) (exit1 exit2 exit3 current_price : Q)
    (entry : Entry) : Entry :=
  if exit_3_hit entry && Qltb exit3 current_price then
    entry |> set_exit_status EXIT_2
          |> set_recovery_attempt true
          |> set_recovery_datetime (Some now)
  else if exit_2_hit entry && negb (exit_3_hit entry)
          && Qltb exit2 current_price then
    entry |> set_exit_status EXIT_1
          |> set_recovery_attempt true
          |> set_recovery_datetime (Some now)
  else if exit_1_hit entry && negb (exit_2_hit entry)
          && Qltb exit1 current_price then
    entry |> set_exit_status ACTIVE
          |> set_recovery_attempt true
          |> set_recovery_datetime (Some now)
  else entry.

(** [# Check EXIT-3 + weak signal = FINAL EXIT] *)
Definition check_final_exit (now : Z) (current_signal : Signal)
    (current_price current_pct : Q) (entry : Entry) : Entry :=
  if exit_3_hit entry
     && (bool_decide (current_signal = WATCH)
         || bool_decide (current_signal = CAUTION)) then
    close now (EXIT3 current_signal) current_price current_pct entry
  else entry.

Definition process_validated_entry (now : Z) (entry : Entry)
    (current_price : Q) (current_signal : Signal) : Result Entry :=
  let entry_price := entry_price entry in
  let peak_price := peak_price entry in
  (* Update peak *)
  peak_price ← operand peak_price;
  let '(peak_price, entry) := update_peak now peak_price current_price entry in
  entry_price ← operand entry_price;
  q ← truediv (current_price - entry_price) entry_price;
  let current_pct := q * 100 in
  q ← truediv (peak_price - entry_price) entry_price;
  let peak_pct := q * 100 in
  (* Check SIGNAL-BASED EXITS (highest priority) *)
  if bool_decide (current_signal = SELL) then
    Ok (close now SELL_SIGNAL current_price current_pct entry)
  else if bool_decide (current_signal = CAUTION) then
    Ok (close now CAUTION_SIGNAL current_price current_pct entry)
  else
    '(exit1, exit2, exit3) ← calculate_exit_levels entry_price peak_price;
    let entry :=
      entry |> store_trailing_stop exit1
            |> check_exit_1 now exit1 current_price
            |> check_exit_2 now exit2 current_price
            |> check_exit_3 now exit3 current_price
            |> check_recovery now exit1 exit2 exit3 current_price
            |> check_final_exit now current_signal current_price current_pct in
    (* Update entry *)
    Ok (entry |> set_current_price (Some current_price)
              |> set_current_profit_pct (Some current_pct)
              |> set_max_profit_pct
                   (Some (Py.max (or_zero (max_profit_pct entry)) peak_pct))).

(** The conversions of [get_active_entries]: every float column goes
    through [float(x) if x else None]. *)
Definition load_entry (row : Entry) : Entry :=
  {| id := id row;
     symbol := symbol row;
     timeframe := timeframe row;
     entry_price := float_if_truthy (entry_price row);
     validation_status := validation_status row;
     validation_datetime := validation_datetime row;
     validation_candles_count := validation_candles_count row;
     exit_status := exit_status row;
     exit_datetime := exit_datetime row;
     exit_price := float_if_truthy (exit_price row);
     exit_reason := exit_reason row;
     peak_price := float_if_truthy (peak_price row);
     peak_datetime := peak_datetime row;
     current_price := float_if_truthy (current_price row);
     current_profit_pct := float_if_truthy (current_profit_pct row);
     max_profit_pct := float_if_truthy (max_profit_pct row);
     final_profit_pct := float_if_truthy (final_profit_pct row);
     exit_1_hit := exit_1_hit row;
     exit_1_datetime := exit_1_datetime row;
     exit_1_price := float_if_truthy (exit_1_price row);
     exit_2_hit := exit_2_hit row;
     exit_2_datetime := exit_2_datetime row;
     exit_2_price := float_if_truthy (exit_2_price row);
     exit_3_hit := exit_3_hit row;
     exit_3_datetime := exit_3_datetime row;
     exit_3_price := float_if_truthy (exit_3_price row);
     trailing_stop_price := float_if_truthy (trailing_stop_price row);
     trailing_stop_active := trailing_stop_active row;
     recovery_attempt := recovery_attempt row;
     recovery_low_price := float_if_truthy (recovery_low_price row);
     recovery_datetime := recovery_datetime row;
     active := active row |}.

(** What one run of the updater observes for an entry: the clock, and
    the latest close and the latest signal of its symbol and timeframe
    ([None] when the query finds nothing). *)
Record Tick : Type := {
  now : Z;
  latest_price : option Q;
  latest_signal : option Signal
}.

(** One round of the loop of [process_all_entries] (step 2) for one
    stored row: the row is selected when it is active, converted,
    processed by its validation status and written back; a skipped
    round leaves the stored row as it is. *)
Definition update_entry (row : Entry) (tick : Tick) : Result Entry :=
  if negb (active row) then Ok row
  else
    let entry := load_entry row in
    match latest_price tick, latest_signal tick with
    | Some current_price, Some current_signal =>
        (* Show entry info *)
        entry_price ← operand (entry_price entry);
        q ← truediv (current_price - entry_price) entry_price;
        let entry_pct := q * 100 in
        (* Process based on validation status *)
        match validation_status entry with
        | VALIDATING =>
            process_validating_entry (now tick) entry current_price current_signal
        | VALIDATED =>
            process_validated_entry (now tick) entry current_price current_signal
        | INVALID => Ok row
        end
    | _, _ => Ok row
    end.

(** The successive runs of the updater over one stored row. *)
Fixpoint run_ticks (row : Entry) (ticks : list Tick) : Result Entry :=
  match ticks with
  | [] => Ok row
  | tick :: rest => row' ← update_entry row tick; run_ticks row' rest
  end.

End EntryUpdater.

(** ** Notions used to state the properties of the scorer *)

Module ScorerSpec.
Import SignalGenerator.

(** The score ceiling of a timeframe class. *)
Definition class_max (tf_type : TfType) : Q :=
  match tf_type with
  | Intraday => 36
  | Swing => 41
  end.

(** The ten components and the bonus, added up. *)
Definition natural_sum (scores : Scores) (bonus : Q) : Q :=
  score_rsi scores + score_macd scores + score_bb scores
  + score_ema_stack scores + score_supertrend scores + score_vwap scores
  + score_volume scores + score_adx scores + score_di scores
  + score_obv scores + bonus.

(** The two upper thresholds of a class, as [classify_signal] reads them. *)
Definition aggressive_buy_threshold (settings : gmap string Q) (tf_type : TfType) : Q :=
  match tf_type with
  | Intraday => settings_get settings "intraday_aggressive_buy_threshold" 29.0
  | Swing => settings_get settings "swing_aggressive_buy_threshold" 33.0
  end.

Definition buy_threshold (settings : gmap string Q) (tf_type : TfType) : Q :=
  match tf_type with
  | Intraday => settings_get settings "intraday_buy_threshold" 23.0
  | Swing => settings_get settings "swing_buy_threshold" 26.0
  end.

(** The row with another RSI reading. *)
Definition with_rsi (r : option Q) (data : IndicatorData) : IndicatorData :=
  {| candle_id := candle_id data; symbol := symbol data;
     timeframe := timeframe data; datetime := datetime data;
     current_price := current_price data; rsi := r;
     macd_line := macd_line data; macd_histogram := macd_histogram data;
     ema_44 := ema_44 data; ema_100 := ema_100 data; ema_200 := ema_200 data;
     bb_position := bb_position data; adx := adx data;
     di_plus := di_plus data; di_minus := di_minus data; atr := atr data;
     obv := obv data; obv_ma := obv_ma data; vwap := vwap data;
     volume_signal := volume_signal data;
     supertrend_1 := supertrend_1 data; supertrend_2 := supertrend_2 data |}.

(** A row and its providers, for examples: the first scenario of the
    specification (RSI 25, MACD histogram +0.5 over a line of +0.1, price
    above the three EMAs and both SuperTrends, ADX 30, DI+ over DI-, OBV
    over its average, high volume, price at the VWAP, no levels set). *)
Definition sample_row : IndicatorData :=
  {| candle_id := 7; symbol := "BTC/USDT"; timeframe := "1h"; datetime := 0;
     current_price := Some 100; rsi := Some 25;
     macd_line := Some 0.1; macd_histogram := Some 0.5;
     ema_44 := Some 90; ema_100 := Some 80; ema_200 := Some 70;
     bb_position := Some "BB~"%string; adx := Some 30;
     di_plus := Some 20; di_minus := Some 10; atr := Some 2;
     obv := Some 10; obv_ma := Some 5; vwap := Some 100;
     volume_signal := Some "H"%string;
     supertrend_1 := Some 95; supertrend_2 := Some 90 |}.

Definition sample_db (row : IndicatorData) : Providers :=
  {| fetch_indicator_data := fun _ _ => Some row;
     fetch_indicator_data_by_id := fun id =>
       if (id =? candle_id row)%Z then Some row else None;
     get_effective_sr := fun _ _ => Ok (0, 0);
     get_magic_line := fun _ => Ok None |}.

End ScorerSpec.

(** ** Notions used to state the properties of the entry lifecycle *)

Module LifecycleSpec.
Import EntryUpdater.

(** The profit of [price] over [entry_price], in percent. *)
Definition profit_pct (entry_price price : Q) : Q :=
  (price - entry_price) / entry_price * 100.

(** The call returned the three levels, up to equality of rationals. *)
Definition returns_levels (r : Result (Q * Q * Q)) (exit1 exit2 exit3 : Q) : Prop :=
  match r with
  | Ok (a, b, c) => a == exit1 /\ b == exit2 /\ c == exit3
  | Raise _ => False
  end.

(** The first level of the ladder, when the call returns. *)
Definition exit1_of (entry_price peak_price : Q) : option Q :=
  match calculate_exit_levels entry_price peak_price with
  | Ok (exit1, _, _) => Some exit1
  | Raise _ => None
  end.

(** The order of two readings of the peak column. *)
Definition peak_le (before after : option Q) : Prop :=
  match before, after with
  | Some a, Some b => a <= b
  | None, None => True
  | _, _ => False
  end.

(** Every exit flag that is set in [before] is set in [after]. *)
Definition hits_kept (before after : Entry) : Prop :=
  (exit_1_hit before = true -> exit_1_hit after = true)
  /\ (exit_2_hit before = true -> exit_2_hit after = true)
  /\ (exit_3_hit before = true -> exit_3_hit after = true).

(** The peak and the maximum profit are the same in both entries. *)
Definition same_peak (before after : Entry) : Prop :=
  peak_price after = peak_price before
  /\ max_profit_pct after = max_profit_pct before.

(** An entry as [create_entry] inserts it, for a signal at [price] on the
    given timeframe. *)
Definition opened (timeframe : string) (price : Q) : Entry :=
  {| id := 1; symbol := "BTC/USDT"; timeframe := timeframe;
     entry_price := Some price;
     validation_status := VALIDATING; validation_datetime := None;
     validation_candles_count := 0;
     exit_status := ACTIVE; exit_datetime := None; exit_price := None;
     exit_reason := None;
     peak_price := Some price; peak_datetime := None;
     current_price := Some price; current_profit_pct := Some 0.0;
     max_profit_pct := Some 0.0; final_profit_pct := None;
     exit_1_hit := false; exit_1_datetime := None; exit_1_price := None;
     exit_2_hit := false; exit_2_datetime := None; exit_2_price := None;
     exit_3_hit := false; exit_3_datetime := None; exit_3_price := None;
     trailing_stop_price := None; trailing_stop_active := false;
     recovery_attempt := false; recovery_low_price := None;
     recovery_datetime := None; active := true |}.

(** The entry opened at 100 on the hourly timeframe, validated with a
    peak of 103. *)
Definition validated_at_103 : Entry :=
  opened "1h" 100 |> set_validation_status VALIDATED
                  |> set_peak_price (Some 103).

(** The same entry after its second level was hit. *)
Definition at_exit_2 : Entry :=
  validated_at_103 |> set_exit_1_hit true |> set_exit_2_hit true
                   |> set_exit_status EXIT_2.

End LifecycleSpec.
(** * Properties *)

(** ** Arithmetic of the embedded builtins *)

Section PyFacts.

Lemma Qltb_lt (x y : Q) : Qltb x y = true <-> x < y.
Proof.
  unfold Qltb. rewrite negb_true_iff, <- not_true_iff_false, Qle_bool_iff.
  split; [apply Qnot_le_lt | apply Qlt_not_le].
Qed.

Lemma Qltb_ge (x y : Q) : Qltb x y = false <-> y <= x.
Proof. unfold Qltb. rewrite negb_false_iff. apply Qle_bool_iff. Qed.

Lemma Qle_bool_gt (x y : Q) : Qle_bool x y = false <-> y < x.
Proof.
  rewrite <- not_true_iff_false, Qle_bool_iff.
  split; [apply Qnot_le_lt | apply Qlt_not_le].
Qed.

Lemma max_ge_l (a b : Q) : a <= Py.max a b.
Proof.
  unfold Py.max. destruct (Qltb a b) eqn:E.
  - apply Qltb_lt in E. lra.
  - lra.
Qed.

Lemma max_ge_r (a b : Q) : b <= Py.max a b.
Proof.
  unfold Py.max. destruct (Qltb a b) eqn:E.
  - lra.
  - apply Qltb_ge in E. lra.
Qed.

Lemma min_Qmin (a b : Q) : Py.min a b == Qmin a b.
Proof.
  unfold Py.min. destruct (Qltb b a) eqn:E.
  - apply Qltb_lt in E. rewrite Q.min_r; lra.
  - apply Qltb_ge in E. rewrite Q.min_l; lra.
Qed.

Lemma truediv_ok (a b : Q) : ~ b == 0 -> truediv a b = Ok (a / b).
Proof.
  intros Hb. unfold truediv.
  destruct (Qeq_bool b 0) eqn:E; [|reflexivity].
  apply Qeq_bool_iff in E. contradiction.
Qed.

Lemma or_zero_eq (x : option Q) : or_zero x == default 0 x.
Proof.
  destruct x as [v|]; simpl; [|reflexivity].
  destruct (Qeq_bool v 0) eqn:E; [|reflexivity].
  apply Qeq_bool_iff in E. rewrite E. reflexivity.
Qed.

Lemma endswith_neq (s : string) (c : ascii) :
  endswith s c = false -> s <> String c EmptyString.
Proof.
  intros H ->. simpl in H. rewrite Ascii.eqb_refl in H. discriminate.
Qed.

End PyFacts.

(** ** The signal scorer *)

Module ScorerProps.
Import SignalGenerator ScorerSpec.

Lemma sum_values (scores : Scores) (bonus : Q) :
  sum (values scores) + bonus == natural_sum scores bonus.
Proof. unfold sum, values, natural_sum. simpl. ring. Qed.

(** C3. The total score is the sum of the ten component scores and the
    price-action bonus, capped at the class maximum (36 for Intraday, 41
    for Swing): it is the minimum of the two, it never exceeds the
    ceiling, and it is never more than the plain sum, so nothing is
    clamped at zero and a negative component stays in the total. *)
Theorem calculate_total_score_is_capped_sum
    (scores : Scores) (price_action_bonus : Q) (tf_type : TfType) :
  calculate_total_score scores price_action_bonus tf_type
    == Qmin (natural_sum scores price_action_bonus) (class_max tf_type)
  /\ calculate_total_score scores price_action_bonus tf_type <= class_max tf_type
  /\ calculate_total_score scores price_action_bonus tf_type
       <= natural_sum scores price_action_bonus.
Proof.
  assert (E : calculate_total_score scores price_action_bonus tf_type
              == Qmin (natural_sum scores price_action_bonus) (class_max tf_type)).
  { unfold calculate_total_score. rewrite min_Qmin, sum_values.
    destruct tf_type; apply Q.min_compat; reflexivity. }
  split; [exact E|]. rewrite E. split.
  - apply Q.le_min_r.
  - apply Q.le_min_l.
Qed.

(** A low-volume penalty with nothing else scored gives a negative total. *)
Example calculate_total_score_negative :
  calculate_total_score
    {| score_rsi := 0; score_macd := 0; score_bb := 0; score_ema_stack := 0;
       score_supertrend := 0; score_vwap := 0; score_volume := - 1.5;
       score_adx := 0; score_di := 0; score_obv := 0 |} 0 Intraday
  == - 1.5.
Proof. reflexivity. Qed.

Lemma classify_signal_rsi_only (settings : gmap string Q) (score : Q)
    (tf_type : TfType) (data data' : IndicatorData) :
  rsi data = rsi data' ->
  classify_signal settings score tf_type data
  = classify_signal settings score tf_type data'.
Proof. intros H. unfold classify_signal. rewrite H. reflexivity. Qed.

(** C4. With an RSI reading below 30 the classification is never A-BUY
    nor BUY, whatever the score and the thresholds; a missing RSI is read
    as 50 by the gate: the row classifies as it would with an RSI of 50,
    and a score at or above the aggressive-buy threshold still gives
    A-BUY, one at or above the buy threshold still gives A-BUY or BUY. *)
Theorem classify_signal_rsi_gate (settings : gmap string Q) (score : Q)
    (tf_type : TfType) (data : IndicatorData) :
  (forall r, rsi data = Some r -> r < 30 ->
     classify_signal settings score tf_type data <> A_BUY
     /\ classify_signal settings score tf_type data <> BUY)
  /\ (rsi data = None ->
      classify_signal settings score tf_type data
      = classify_signal settings score tf_type (with_rsi (Some 50) data)
      /\ (aggressive_buy_threshold settings tf_type <= score ->
          classify_signal settings score tf_type data = A_BUY)
      /\ (buy_threshold settings tf_type <= score ->
          classify_signal settings score tf_type data = A_BUY
          \/ classify_signal settings score tf_type data = BUY)).
Proof.
  split.
  - intros r Hr Hlow.
    assert (Hgate : Qle_bool 30 r = false) by (apply Qle_bool_gt; exact Hlow).
    unfold classify_signal. rewrite Hr, Hgate.
    destruct tf_type; cbn zeta beta iota; rewrite !andb_false_r;
      repeat match goal with
             | |- context [if ?c then _ else _] => destruct c
             end; split; discriminate.
  - intros Hnone.
    assert (Hgate : Qle_bool 30 50 = true) by reflexivity.
    split; [|split].
    + unfold classify_signal. simpl. rewrite Hnone. reflexivity.
    + intros Hs. apply Qle_bool_iff in Hs.
      unfold classify_signal, aggressive_buy_threshold in *.
      rewrite Hnone, Hgate. destruct tf_type; cbn zeta beta iota;
        rewrite Hs; reflexivity.
    + intros Hs. apply Qle_bool_iff in Hs.
      unfold classify_signal, buy_threshold in *.
      rewrite Hnone, Hgate. destruct tf_type; cbn zeta beta iota;
        rewrite Hs, !andb_true_r;
        match goal with
        | |- context [if ?c then _ else _] => destruct c
        end; auto.
Qed.

(** The first scenario of the specification: the components add up to
    26, which is at least the Intraday buy threshold of 23, and the RSI of
    25 keeps the signal at EARLY-BUY. *)
Example scenario_rsi_gate :
  (scores ← calculate_score_components sample_row Intraday;
   Ok (Qred (calculate_total_score scores 0 Intraday),
       classify_signal ∅ (calculate_total_score scores 0 Intraday)
         Intraday sample_row))
  = Ok (26, EARLY_BUY).
Proof. vm_compute. reflexivity. Qed.

Lemma classify_signal_rsi_gate_witness :
  (classify_signal ∅ 30 Intraday sample_row <> A_BUY
   /\ classify_signal ∅ 30 Intraday sample_row <> BUY)
  /\ classify_signal ∅ 30 Intraday (with_rsi None sample_row) = A_BUY
  /\ (classify_signal ∅ 25 Intraday (with_rsi None sample_row) = A_BUY
      \/ classify_signal ∅ 25 Intraday (with_rsi None sample_row) = BUY).
Proof.
  split; [|split].
  - apply (proj1 (classify_signal_rsi_gate ∅ 30 Intraday sample_row) 25);
      reflexivity.
  - apply (proj2 (classify_signal_rsi_gate ∅ 30 Intraday
                    (with_rsi None sample_row)));
      [reflexivity | vm_compute; discriminate].
  - apply (proj2 (classify_signal_rsi_gate ∅ 25 Intraday
                    (with_rsi None sample_row)));
      [reflexivity | vm_compute; discriminate].
Defined.

(** *** Timeframe classification *)

Lemma endswith_W_only (timeframe : string) :
  endswith timeframe "W" = false -> String.eqb timeframe "W" = false.
Proof. intros H. apply String.eqb_neq. apply (endswith_neq _ _ H). Qed.

(** The branch of a [m] or [h] suffix: the outcome of [int] decides. *)
Ltac numeric_suffix :=
  destruct (int (but_last _)) as [n|e'] eqn:Ei; cbn;
  [ try destruct (_ <=? 240)%Z; (split; [discriminate | intros [_ [=]]])
  | split; [intros [= ->]; auto | intros [_ [= ->]]; reflexivity] ].

(** C2 (as amended). Classification raises exactly when the string ends
    in [m] or [h] and what precedes the suffix is not an integer, and the
    error is that of [int]; a string with none of the suffixes [m], [h],
    [d], [W] that is not [D] raises nothing: it is given 60 minutes and
    classified Intraday, with a ceiling of 36 in the scorer. *)
Theorem classify_timeframe_raises_or_defaults (timeframe : string) :
  (forall e,
     SignalGenerator.classify_timeframe timeframe = Raise e
     <-> (endswith timeframe "m" = true \/ endswith timeframe "h" = true)
         /\ int (but_last timeframe) = Raise e)
  /\ (forall e,
        EntryUpdater.classify_timeframe timeframe = Raise e
        <-> (endswith timeframe "m" = true \/ endswith timeframe "h" = true)
            /\ int (but_last timeframe) = Raise e)
  /\ (endswith timeframe "m" = false -> endswith timeframe "h" = false ->
      endswith timeframe "d" = false -> endswith timeframe "W" = false ->
      timeframe <> "D"%string ->
      SignalGenerator.classify_timeframe timeframe = Ok (Intraday, 36.0)
      /\ EntryUpdater.classify_timeframe timeframe = Ok Intraday).
Proof.
  split; [|split].
  - intros e. unfold SignalGenerator.classify_timeframe.
    destruct (endswith timeframe "m") eqn:Em;
      [|destruct (endswith timeframe "h") eqn:Eh].
    + numeric_suffix.
    + numeric_suffix.
    + repeat match goal with
             | |- context [if ?c then _ else _] => destruct c; cbn
             end; split; try discriminate; intros [[?|?] _]; discriminate.
  - intros e. unfold EntryUpdater.classify_timeframe.
    destruct (endswith timeframe "m") eqn:Em;
      [|destruct (endswith timeframe "h") eqn:Eh].
    + numeric_suffix.
    + numeric_suffix.
    + repeat match goal with
             | |- context [if ?c then _ else _] => destruct c; cbn
             end; split; try discriminate; intros [[?|?] _]; discriminate.
  - intros Em Eh Ed EW HD. apply String.eqb_neq in HD. split.
    + unfold SignalGenerator.classify_timeframe.
      rewrite Em, Eh, Ed, HD, EW, (endswith_W_only _ EW). reflexivity.
    + unfold EntryUpdater.classify_timeframe.
      rewrite Em, Eh, Ed, HD. reflexivity.
Qed.

Lemma classify_timeframe_raises_or_defaults_witness :
  SignalGenerator.classify_timeframe "4x" = Ok (Intraday, 36.0)
  /\ EntryUpdater.classify_timeframe "4x" = Ok Intraday
  /\ SignalGenerator.classify_timeframe "xm" = Raise ValueError.
Proof.
  pose proof (classify_timeframe_raises_or_defaults "4x") as (_ & _ & Hdefault).
  pose proof (classify_timeframe_raises_or_defaults "xm") as (Hraise & _ & _).
  destruct Hdefault as [Hs He]; try reflexivity; [discriminate|].
  split; [exact Hs|]. split; [exact He|].
  apply Hraise. split; [left|]; reflexivity.
Defined.

(** C2 (as stated) fails: a string that names no timeframe is classified,
    without any error, by both components. *)
Lemma classify_timeframe_unsupported_is_classified :
  SignalGenerator.classify_timeframe "abc" = Ok (Intraday, 36.0)
  /\ EntryUpdater.classify_timeframe "abc" = Ok Intraday
  /\ ~ (forall timeframe : string,
          endswith timeframe "m" = false -> endswith timeframe "h" = false ->
          endswith timeframe "d" = false -> endswith timeframe "W" = false ->
          timeframe <> "D"%string ->
          (exists e, SignalGenerator.classify_timeframe timeframe = Raise e)
          /\ (exists e, EntryUpdater.classify_timeframe timeframe = Raise e)).
Proof.
  split; [reflexivity|]. split; [reflexivity|].
  intros H. destruct (H "abc"%string) as [[e He] _];
    try reflexivity; discriminate.
Qed.

(** *** Signal generation *)

(** C9. When the row fetched for a candle lacks the RSI or the MACD
    histogram, [generate_signal] leaves its body by the early
    [return None]: no exception is raised inside it, the caller receives
    [None], and the batch loop stores nothing and counts nothing. *)
Theorem generate_signal_skips_missing_indicators
    (db : Providers) (settings : gmap string Q) (symbol timeframe : string)
    (candle_id : option Z) (data : IndicatorData)
    (signals : gmap Z SignalData) (total_generated : nat) :
  fetch db symbol timeframe candle_id = Some data ->
  rsi data = None \/ macd_histogram data = None ->
  generate_signal_body db settings symbol timeframe candle_id = Ok None
  /\ generate_signal db settings symbol timeframe candle_id = None
  /\ generate_and_store db settings symbol timeframe candle_id
       (signals, total_generated)
     = (signals, total_generated).
Proof.
  intros Hfetch Hmissing.
  assert (Hbody : generate_signal_body db settings symbol timeframe candle_id
                  = Ok None).
  { unfold generate_signal_body. rewrite Hfetch.
    destruct Hmissing as [-> | ->]; simpl;
      [|destruct (bool_decide (rsi data = None))]; reflexivity. }
  assert (Hgen : generate_signal db settings symbol timeframe candle_id = None).
  { unfold generate_signal. rewrite Hbody. reflexivity. }
  split; [exact Hbody|]. split; [exact Hgen|].
  unfold generate_and_store. rewrite Hgen. reflexivity.
Qed.

Lemma generate_signal_skips_missing_indicators_witness :
  generate_signal (sample_db (with_rsi None sample_row)) ∅ "BTC/USDT" "1h" (Some 7%Z)
  = None
  /\ generate_and_store (sample_db (with_rsi None sample_row)) ∅
       "BTC/USDT" "1h" (Some 7%Z) (∅, 0%nat)
     = (∅, 0%nat).
Proof.
  pose proof (generate_signal_skips_missing_indicators
                (sample_db (with_rsi None sample_row)) ∅ "BTC/USDT" "1h"
                (Some 7%Z) (with_rsi None sample_row) ∅ 0%nat
                eq_refl (or_introl eq_refl)) as (_ & Hgen & Hstore).
  split; [exact Hgen | exact Hstore].
Defined.

(** With both required indicators present the same call produces a
    signal and the loop stores it under the candle. *)
Example generate_signal_sample :
  (sd_signal <$> generate_signal (sample_db sample_row) ∅ "BTC/USDT" "1h" (Some 7%Z))
  = Some EARLY_BUY
  /\ (fst (generate_and_store (sample_db sample_row) ∅ "BTC/USDT" "1h"
             (Some 7%Z) (∅, 0%nat)) !! 7%Z) <> None.
Proof. split; [vm_compute; reflexivity | vm_compute; discriminate]. Qed.

End ScorerProps.

(** ** The entry lifecycle *)

Module LifecycleProps.
Import EntryUpdater LifecycleSpec.

#[local] Arguments process_validating_entry : simpl never.
#[local] Arguments process_validated_entry : simpl never.
#[local] Arguments calculate_exit_levels : simpl never.
#[local] Arguments classify_timeframe : simpl never.
#[local] Arguments update_peak : simpl never.
#[local] Arguments truediv : simpl never.

(** *** The exit ladder *)

Lemma max_Qmax (a b : Q) : Py.max a b == Qmax a b.
Proof.
  unfold Py.max. destruct (Qltb a b) eqn:E.
  - apply Qltb_lt in E. rewrite Q.max_r; lra.
  - apply Qltb_ge in E. rewrite Q.max_l; lra.
Qed.

(** Unfolds the ladder at a non-zero entry price and splits its zones. *)
Ltac ladder_zones :=
  unfold calculate_exit_levels;
  rewrite truediv_ok by assumption; cbn;
  unfold breakeven_threshold, zone3_start, zone4_start, zone5_start;
  repeat match goal with
         | |- context [if Qltb ?a ?b then _ else _] =>
             let E := fresh "Z" in
             destruct (Qltb a b) eqn:E;
             [apply Qltb_lt in E | apply Qltb_ge in E]
         end.

Ltac fold_divisions :=
  repeat match goal with
    | |- context [Qdiv (Qmake ?a ?b) (Qmake ?c ?d)] =>
        let v := eval vm_compute in (Qdiv (Qmake a b) (Qmake c d)) in
        change (Qdiv (Qmake a b) (Qmake c d)) with v
    | H : context [Qdiv (Qmake ?a ?b) (Qmake ?c ?d)] |- _ =>
        let v := eval vm_compute in (Qdiv (Qmake a b) (Qmake c d)) in
        change (Qdiv (Qmake a b) (Qmake c d)) with v in H
    end.

(** Linear arithmetic once the settings are replaced by their values. *)
Ltac close_level :=
  unfold exit1_below_entry, exit2_below_entry, exit3_below_entry,
    zone3_lock_pct, zone3_exit2_drop, zone3_exit3_drop,
    zone4_lock_pct, zone4_exit2_drop, zone4_exit3_drop,
    zone5_lock_pct, zone5_exit1_drop, zone5_exit2_drop, zone5_exit3_drop in *;
  fold_divisions; lra.

Lemma exit_levels_by_zone (entry_price peak_price : Q) :
  ~ entry_price == 0 ->
  let pct := profit_pct entry_price peak_price in
  let gain := peak_price - entry_price in
  let levels := calculate_exit_levels entry_price peak_price in
  (pct < 1 -> returns_levels levels 0 0 0)
  /\ (1 <= pct -> pct < 2 ->
      returns_levels levels
        (entry_price * (1 - 0 / 100))
        (entry_price * (1 - 0.5 / 100))
        (entry_price * (1 - 1 / 100)))
  /\ (2 <= pct -> pct < 5 ->
      let exit1 := entry_price + gain * (50 / 100) in
      let exit2 := exit1 * (1 - 1 / 100) in
      returns_levels levels exit1 exit2 (exit2 * (1 - 1 / 100)))
  /\ (5 <= pct -> pct < 10 ->
      let exit1 := entry_price + gain * (60 / 100) in
      let exit2 := exit1 * (1 - 1.5 / 100) in
      returns_levels levels exit1 exit2 (exit2 * (1 - 1 / 100)))
  /\ (10 <= pct ->
      let exit1 :=
        Qmax (entry_price + gain * (70 / 100)) (peak_price * (1 - 2 / 100)) in
      let exit2 := exit1 * (1 - 1 / 100) in
      returns_levels levels exit1 exit2 (exit2 * (1 - 1 / 100))).
Proof.
  intros Hentry pct gain levels. subst pct gain levels. unfold profit_pct.
  assert (Hm : Py.max (entry_price
                       + (peak_price - entry_price) * (zone5_lock_pct / 100))
                      (peak_price * (1 - zone5_exit1_drop / 100))
               == Qmax (entry_price + (peak_price - entry_price) * (70 / 100))
                       (peak_price * (1 - 2 / 100))).
  { rewrite max_Qmax. apply Q.max_compat; close_level. }
  repeat apply conj; intros; ladder_zones;
    try (exfalso; lra); unfold returns_levels; cbv zeta;
    rewrite ?Hm; repeat apply conj; close_level.
Qed.

(** C5. The ladder of [calculate_exit_levels] by peak profit: nothing
    below 1%; the entry price less 0, 0.5 and 1 percent from 1% to 2%; half
    of the gain locked from 2% to 5%, then 1% and 1% lower; 60% locked from
    5% to 10%, then 1.5% and 1% lower; from 10% the larger of 70% locked
    and 2% under the peak, then 1% and 1% lower. At an entry of 100 and a
    peak of 103 the levels are 101.5, 100.485 and 99.48015, the last
    between 99.475 and 99.485. *)
Theorem calculate_exit_levels_ladder (entry_price peak_price : Q) :
  ~ entry_price == 0 ->
  let pct := profit_pct entry_price peak_price in
  let gain := peak_price - entry_price in
  let levels := calculate_exit_levels entry_price peak_price in
  (pct < 1 -> returns_levels levels 0 0 0)
  /\ (1 <= pct -> pct < 2 ->
      returns_levels levels
        (entry_price * (1 - 0 / 100))
        (entry_price * (1 - 0.5 / 100))
        (entry_price * (1 - 1 / 100)))
  /\ (2 <= pct -> pct < 5 ->
      let exit1 := entry_price + gain * (50 / 100) in
      let exit2 := exit1 * (1 - 1 / 100) in
      returns_levels levels exit1 exit2 (exit2 * (1 - 1 / 100)))
  /\ (5 <= pct -> pct < 10 ->
      let exit1 := entry_price + gain * (60 / 100) in
      let exit2 := exit1 * (1 - 1.5 / 100) in
      returns_levels levels exit1 exit2 (exit2 * (1 - 1 / 100)))
  /\ (10 <= pct ->
      let exit1 :=
        Qmax (entry_price + gain * (70 / 100)) (peak_price * (1 - 2 / 100)) in
      let exit2 := exit1 * (1 - 1 / 100) in
      returns_levels levels exit1 exit2 (exit2 * (1 - 1 / 100)))
  /\ returns_levels (calculate_exit_levels 100 103) 101.5 100.485 99.48015
  /\ (exists exit1 exit2 exit3,
        calculate_exit_levels 100 103 = Ok (exit1, exit2, exit3)
        /\ 99.475 < exit3 /\ exit3 < 99.485).
Proof.
  intros Hentry pct gain levels.
  pose proof (exit_levels_by_zone entry_price peak_price Hentry)
    as (Z1 & Z2 & Z3 & Z4 & Z5).
  repeat apply conj; try assumption; try (vm_compute; reflexivity).
  eexists _, _, _. split; [vm_compute; reflexivity|].
  split; vm_compute; reflexivity.
Qed.

Lemma calculate_exit_levels_ladder_witness :
  returns_levels (calculate_exit_levels 100 100.5) 0 0 0
  /\ returns_levels (calculate_exit_levels 100 101.5)
       (100 * (1 - 0 / 100)) (100 * (1 - 0.5 / 100)) (100 * (1 - 1 / 100))
  /\ returns_levels (calculate_exit_levels 100 103)
       (100 + (103 - 100) * (50 / 100))
       ((100 + (103 - 100) * (50 / 100)) * (1 - 1 / 100))
       ((100 + (103 - 100) * (50 / 100)) * (1 - 1 / 100) * (1 - 1 / 100))
  /\ returns_levels (calculate_exit_levels 100 107)
       (100 + (107 - 100) * (60 / 100))
       ((100 + (107 - 100) * (60 / 100)) * (1 - 1.5 / 100))
       ((100 + (107 - 100) * (60 / 100)) * (1 - 1.5 / 100) * (1 - 1 / 100))
  /\ returns_levels (calculate_exit_levels 100 112)
       (Qmax (100 + (112 - 100) * (70 / 100)) (112 * (1 - 2 / 100)))
       (Qmax (100 + (112 - 100) * (70 / 100)) (112 * (1 - 2 / 100))
        * (1 - 1 / 100))
       (Qmax (100 + (112 - 100) * (70 / 100)) (112 * (1 - 2 / 100))
        * (1 - 1 / 100) * (1 - 1 / 100)).
Proof.
  assert (Hentry : ~ 100 == 0) by (vm_compute; discriminate).
  pose proof (calculate_exit_levels_ladder 100 100.5 Hentry) as (Zone1 & _).
  pose proof (calculate_exit_levels_ladder 100 101.5 Hentry) as (_ & Zone2 & _).
  pose proof (calculate_exit_levels_ladder 100 103 Hentry)
    as (_ & _ & Zone3 & _).
  pose proof (calculate_exit_levels_ladder 100 107 Hentry)
    as (_ & _ & _ & Zone4 & _).
  pose proof (calculate_exit_levels_ladder 100 112 Hentry)
    as (_ & _ & _ & _ & Zone5 & _).
  split; [apply Zone1; vm_compute; reflexivity|].
  split; [apply Zone2; vm_compute; [discriminate | reflexivity]|].
  split; [apply Zone3; vm_compute; [discriminate | reflexivity]|].
  split; [apply Zone4; vm_compute; [discriminate | reflexivity]|].
  apply Zone5; vm_compute; discriminate.
Defined.

Lemma profit_pct_lt (entry_price price c : Q) :
  0 < entry_price ->
  profit_pct entry_price price < c -> (price - entry_price) * 100 < c * entry_price.
Proof.
  unfold profit_pct. intros Hpos H.
  assert (E : price - entry_price == (price - entry_price) / entry_price * entry_price)
    by (field; lra).
  set (q := (price - entry_price) / entry_price) in *. nra.
Qed.

Lemma profit_pct_ge (entry_price price c : Q) :
  0 < entry_price ->
  c <= profit_pct entry_price price -> c * entry_price <= (price - entry_price) * 100.
Proof.
  unfold profit_pct. intros Hpos H.
  assert (E : price - entry_price == (price - entry_price) / entry_price * entry_price)
    by (field; lra).
  set (q := (price - entry_price) / entry_price) in *. nra.
Qed.

Lemma profit_pct_at (entry_price p : Q) :
  0 < entry_price ->
  profit_pct entry_price (entry_price * (1 + p / 100)) == p.
Proof. intros Hpos. unfold profit_pct. field. lra. Qed.

Lemma exit1_of_returns (entry_price peak_price exit1 exit2 exit3 : Q) :
  returns_levels (calculate_exit_levels entry_price peak_price) exit1 exit2 exit3 ->
  exists a, exit1_of entry_price peak_price = Some a /\ a == exit1.
Proof.
  unfold returns_levels, exit1_of.
  destruct (calculate_exit_levels entry_price peak_price) as [[[a b] c]|];
    [|contradiction].
  intros (Ha & _ & _). exists a. split; [reflexivity | exact Ha].
Qed.

Lemma exit1_at_boundary (entry_price : Q) :
  0 < entry_price ->
  (exists b, exit1_of entry_price (entry_price * (1 + 2 / 100)) = Some b
             /\ b == entry_price * (1 + 1 / 100))
  /\ (exists b, exit1_of entry_price (entry_price * (1 + 5 / 100)) = Some b
                /\ b == entry_price * (1 + 3 / 100))
  /\ (exists b, exit1_of entry_price (entry_price * (1 + 10 / 100)) = Some b
                /\ b == entry_price * (1 + 7.8 / 100)).
Proof.
  intros Hpos.
  assert (Hentry : ~ entry_price == 0) by lra.
  repeat apply conj.
  - pose proof (exit_levels_by_zone entry_price (entry_price * (1 + 2 / 100)) Hentry)
      as (_ & _ & Z & _).
    pose proof (profit_pct_at entry_price 2 Hpos) as Hp.
    destruct (exit1_of_returns _ _ _ _ _ (Z ltac:(lra) ltac:(lra))) as (b & Hb & Eb).
    exists b. split; [exact Hb|]. rewrite Eb. fold_divisions. lra.
  - pose proof (exit_levels_by_zone entry_price (entry_price * (1 + 5 / 100)) Hentry)
      as (_ & _ & _ & Z & _).
    pose proof (profit_pct_at entry_price 5 Hpos) as Hp.
    destruct (exit1_of_returns _ _ _ _ _ (Z ltac:(lra) ltac:(lra))) as (b & Hb & Eb).
    exists b. split; [exact Hb|]. rewrite Eb. fold_divisions. lra.
  - pose proof (exit_levels_by_zone entry_price (entry_price * (1 + 10 / 100)) Hentry)
      as (_ & _ & _ & _ & Z).
    pose proof (profit_pct_at entry_price 10 Hpos) as Hp.
    destruct (exit1_of_returns _ _ _ _ _ (Z ltac:(lra))) as (b & Hb & Eb).
    exists b. split; [exact Hb|]. rewrite Eb. fold_divisions.
    rewrite Q.max_r; lra.
Qed.

(** C8. At a positive entry price the first exit level never loosens
    across a zone boundary: the level at a peak profit of exactly 2% (1%
    over the entry) is at least the level anywhere in the 1-2% zone, the
    level at exactly 5% (3% over the entry) is at least the level anywhere
    in the 2-5% zone, and the level at exactly 10% (7.8% over the entry)
    is at least the level anywhere in the 5-10% zone. *)
Theorem exit1_never_loosens_across_zones (entry_price peak_price : Q) :
  0 < entry_price ->
  let pct := profit_pct entry_price peak_price in
  let boundary p := exit1_of entry_price (entry_price * (1 + p / 100)) in
  exists below,
    exit1_of entry_price peak_price = Some below
    /\ (1 <= pct -> pct < 2 ->
        exists b, boundary 2 = Some b /\ b == entry_price * (1 + 1 / 100) /\ below <= b)
    /\ (2 <= pct -> pct < 5 ->
        exists b, boundary 5 = Some b /\ b == entry_price * (1 + 3 / 100) /\ below <= b)
    /\ (5 <= pct -> pct < 10 ->
        exists b, boundary 10 = Some b /\ b == entry_price * (1 + 7.8 / 100) /\ below <= b).
Proof.
  intros Hpos pct boundary. subst pct boundary. cbv beta.
  assert (Hentry : ~ entry_price == 0) by lra.
  destruct (exit1_at_boundary entry_price Hpos)
    as ((b2 & Hb2 & Eb2) & (b5 & Hb5 & Eb5) & (b10 & Hb10 & Eb10)).
  pose proof (exit_levels_by_zone entry_price peak_price Hentry)
    as (_ & Z2 & Z3 & Z4 & _).
  assert (Hret : exists below, exit1_of entry_price peak_price = Some below).
  { unfold exit1_of, calculate_exit_levels. rewrite truediv_ok by exact Hentry.
    cbn. repeat match goal with
                | |- context [if ?c then _ else _] => destruct c
                end; eexists; reflexivity. }
  destruct Hret as (below & Hbelow). exists below. split; [exact Hbelow|].
  repeat apply conj; intros Hlo Hhi.
  - destruct (exit1_of_returns _ _ _ _ _ (Z2 Hlo Hhi)) as (a & Ha & Ea).
    rewrite Hbelow in Ha. injection Ha as <-.
    exists b2. repeat split; [exact Hb2 | exact Eb2 |].
    rewrite Ea, Eb2. fold_divisions. lra.
  - destruct (exit1_of_returns _ _ _ _ _ (Z3 Hlo Hhi)) as (a & Ha & Ea).
    rewrite Hbelow in Ha. injection Ha as <-.
    exists b5. repeat split; [exact Hb5 | exact Eb5 |].
    apply profit_pct_lt in Hhi; [|exact Hpos].
    rewrite Ea, Eb5. fold_divisions. lra.
  - destruct (exit1_of_returns _ _ _ _ _ (Z4 Hlo Hhi)) as (a & Ha & Ea).
    rewrite Hbelow in Ha. injection Ha as <-.
    exists b10. repeat split; [exact Hb10 | exact Eb10 |].
    apply profit_pct_lt in Hhi; [|exact Hpos].
    rewrite Ea, Eb10. fold_divisions. lra.
Qed.

Lemma exit1_never_loosens_across_zones_witness :
  (exists below b, exit1_of 100 101.5 = Some below
                   /\ exit1_of 100 (100 * (1 + 2 / 100)) = Some b /\ below <= b)
  /\ (exists below b, exit1_of 100 104 = Some below
                      /\ exit1_of 100 (100 * (1 + 5 / 100)) = Some b /\ below <= b)
  /\ (exists below b, exit1_of 100 109 = Some below
                      /\ exit1_of 100 (100 * (1 + 10 / 100)) = Some b /\ below <= b).
Proof.
  assert (Hpos : 0 < 100) by reflexivity.
  repeat apply conj.
  - destruct (exit1_never_loosens_across_zones 100 101.5 Hpos)
      as (below & Hbelow & Z & _).
    destruct Z as (b & Hb & _ & Hle); [vm_compute; discriminate | reflexivity |].
    exists below, b. auto.
  - destruct (exit1_never_loosens_across_zones 100 104 Hpos)
      as (below & Hbelow & _ & Z & _).
    destruct Z as (b & Hb & _ & Hle); [vm_compute; discriminate | reflexivity |].
    exists below, b. auto.
  - destruct (exit1_never_loosens_across_zones 100 109 Hpos)
      as (below & Hbelow & _ & _ & Z).
    destruct Z as (b & Hb & _ & Hle); [vm_compute; discriminate | reflexivity |].
    exists below, b. auto.
Defined.

(** *** The exit flags *)

Lemma exit_levels_ordered (entry_price peak_price exit1 exit2 exit3 : Q) :
  calculate_exit_levels entry_price peak_price = Ok (exit1, exit2, exit3) ->
  0 < exit3 -> exit3 < exit2 /\ exit2 < exit1.
Proof.
  unfold calculate_exit_levels, truediv.
  destruct (Qeq_bool entry_price 0); [discriminate|]. cbn.
  repeat match goal with
         | |- context [if ?c then _ else _] => destruct c
         end; intros [= <- <- <-] Hpos;
    try generalize dependent (Py.max (entry_price + (peak_price - entry_price) * (zone5_lock_pct / 100)) (peak_price * (1 - zone5_exit1_drop / 100)));
    intros; close_level.
Qed.

Ltac split_ifs :=
  repeat match goal with
         | |- context [if ?c then _ else _] => destruct c eqn:?
         end.

Lemma hits_kept_refl (e : Entry) : hits_kept e e.
Proof. unfold hits_kept. tauto. Qed.

Lemma hits_kept_trans (a b c : Entry) :
  hits_kept a b -> hits_kept b c -> hits_kept a c.
Proof. unfold hits_kept. tauto. Qed.

Ltac frame_hits := unfold hits_kept; split_ifs; cbn; intuition auto.

Lemma update_peak_hits (now : Z) (pk p : Q) (e : Entry) :
  hits_kept e (snd (update_peak now pk p e)).
Proof. unfold update_peak. frame_hits. Qed.

Lemma close_hits (now : Z) (r : ExitReason) (p pct : Q) (e : Entry) :
  hits_kept e (close now r p pct e).
Proof. unfold close. frame_hits. Qed.

Lemma invalidate_hits (now : Z) (r : ExitReason) (p pct : Q) (e : Entry) :
  hits_kept e (invalidate now r p pct e).
Proof. unfold invalidate. frame_hits. Qed.

Lemma store_trailing_stop_hits (x : Q) (e : Entry) :
  hits_kept e (store_trailing_stop x e).
Proof. unfold store_trailing_stop. frame_hits. Qed.

Lemma check_exit_1_hits (now : Z) (x p : Q) (e : Entry) :
  hits_kept e (check_exit_1 now x p e).
Proof. unfold check_exit_1. frame_hits. Qed.

Lemma check_exit_2_hits (now : Z) (x p : Q) (e : Entry) :
  hits_kept e (check_exit_2 now x p e).
Proof. unfold check_exit_2. frame_hits. Qed.

Lemma check_exit_3_hits (now : Z) (x p : Q) (e : Entry) :
  hits_kept e (check_exit_3 now x p e).
Proof. unfold check_exit_3. frame_hits. Qed.

Lemma check_recovery_hits (now : Z) (x1 x2 x3 p : Q) (e : Entry) :
  hits_kept e (check_recovery now x1 x2 x3 p e).
Proof. unfold check_recovery. frame_hits. Qed.

Lemma check_final_exit_hits (now : Z) (s : Signal) (p pct : Q) (e : Entry) :
  hits_kept e (check_final_exit now s p pct e).
Proof. unfold check_final_exit, close. frame_hits. Qed.

Create HintDb lifecycle.
#[local] Hint Resolve hits_kept_refl update_peak_hits close_hits invalidate_hits
  store_trailing_stop_hits check_exit_1_hits check_exit_2_hits
  check_exit_3_hits check_recovery_hits check_final_exit_hits : lifecycle.

Ltac chain_hits :=
  repeat first
    [ solve [auto with lifecycle]
    | eapply hits_kept_trans; [|solve [auto with lifecycle]] ].

Lemma process_validated_entry_hits (now : Z) (e : Entry) (p : Q) (s : Signal)
    (e' : Entry) :
  process_validated_entry now e p s = Ok e' -> hits_kept e e'.
Proof.
  unfold process_validated_entry.
  destruct (peak_price e) as [pk|]; [|discriminate]. cbn.
  pose proof (update_peak_hits now pk p e) as Hpeak.
  destruct (update_peak now pk p e) as [peak e1]. cbn in Hpeak.
  destruct (entry_price e) as [ep|]; [|discriminate]. cbn.
  destruct (truediv (p - ep) ep); [|discriminate]. cbn.
  destruct (truediv (peak - ep) ep); [|discriminate]. cbn.
  destruct (bool_decide (s = SELL)).
  { intros [= <-]. chain_hits. }
  destruct (bool_decide (s = CAUTION)).
  { intros [= <-]. chain_hits. }
  destruct (calculate_exit_levels ep peak) as [[[x1 x2] x3]|]; [|discriminate].
  cbn. intros [= <-].
  eapply hits_kept_trans; [exact Hpeak|].
  match goal with
  | |- hits_kept _ (set_max_profit_pct _ (set_current_profit_pct _ (set_current_price _ ?x))) =>
      apply (hits_kept_trans _ x); [chain_hits | unfold hits_kept; cbn; tauto]
  end.
Qed.

Ltac run_div :=
  match goal with
  | |- context [truediv ?a ?b] =>
      destruct (truediv a b) eqn:?; [|discriminate]; cbn
  end.

Lemma process_validating_entry_hits (now : Z) (e : Entry) (p : Q) (s : Signal)
    (e' : Entry) :
  process_validating_entry now e p s = Ok e' -> hits_kept e e'.
Proof.
  unfold process_validating_entry.
  destruct (classify_timeframe (timeframe e)) as [tf|]; [|discriminate]. cbn.
  destruct (peak_price e) as [pk|]; [|discriminate]. cbn.
  unfold update_peak. destruct (Qltb pk p); cbn;
  (destruct (entry_price e) as [ep|]; [|discriminate]); cbn;
  destruct (recovery_low_price e) as [low|] eqn:Hlow; cbn;
  try destruct (Qltb p low); cbn; rewrite ?Hlow; cbn;
  repeat run_div;
  intros [= <-]; unfold invalidate; frame_hits.
Qed.

Lemma float_if_truthy_Some (x : option Q) (v : Q) :
  float_if_truthy x = Some v -> x = Some v /\ ~ v == 0.
Proof.
  destruct x as [w|]; [|discriminate]. simpl.
  destruct (Qeq_bool w 0) eqn:E; [discriminate|].
  intros [= ->]. split; [reflexivity|].
  intros H. apply Qeq_bool_iff in H. congruence.
Qed.

Lemma float_if_truthy_nonzero (v : Q) :
  ~ v == 0 -> float_if_truthy (Some v) = Some v.
Proof.
  intros H. simpl. destruct (Qeq_bool v 0) eqn:E; [|reflexivity].
  apply Qeq_bool_iff in E. contradiction.
Qed.

Lemma or_zero_float_if_truthy (x : option Q) :
  or_zero (float_if_truthy x) = or_zero x.
Proof.
  destruct x as [v|]; [|reflexivity]. simpl.
  destruct (Qeq_bool v 0) eqn:E; simpl; rewrite ?E; reflexivity.
Qed.

Lemma load_entry_hits (row : Entry) : hits_kept row (load_entry row).
Proof. unfold hits_kept. cbn. tauto. Qed.

Lemma update_entry_hits (row : Entry) (tick : Tick) (row' : Entry) :
  update_entry row tick = Ok row' -> hits_kept row row'.
Proof.
  unfold update_entry.
  destruct (active row); cbn; [|intros [= <-]; apply hits_kept_refl].
  destruct (latest_price tick) as [p|]; [|intros [= <-]; apply hits_kept_refl].
  destruct (latest_signal tick) as [s|]; [|intros [= <-]; apply hits_kept_refl].
  destruct (float_if_truthy (entry_price row)) as [ep|]; [|discriminate]. cbn.
  destruct (truediv (p - ep) ep); [|discriminate]. cbn.
  destruct (validation_status row).
  - intros H. apply process_validating_entry_hits in H.
    apply (hits_kept_trans _ _ _ (load_entry_hits row) H).
  - intros H. apply process_validated_entry_hits in H.
    apply (hits_kept_trans _ _ _ (load_entry_hits row) H).
  - intros [= <-]. apply hits_kept_refl.
Qed.

Lemma run_ticks_hits (ticks : list Tick) (row row' : Entry) :
  run_ticks row ticks = Ok row' -> hits_kept row row'.
Proof.
  revert row. induction ticks as [|tick rest IH]; intros row; simpl.
  - intros [= <-]. apply hits_kept_refl.
  - destruct (update_entry row tick) as [mid|] eqn:Hstep; [|discriminate]. cbn.
    intros Hrest. apply (hits_kept_trans _ mid).
    + apply (update_entry_hits _ _ _ Hstep).
    + apply (IH _ Hrest).
Qed.

Lemma exit_levels_nonzero (ep peak : Q) (r : Q * Q * Q) :
  calculate_exit_levels ep peak = Ok r -> ~ ep == 0.
Proof.
  unfold calculate_exit_levels, truediv.
  destruct (Qeq_bool ep 0) eqn:E; [discriminate|].
  intros _ H. apply Qeq_bool_iff in H. congruence.
Qed.

(** The round of an active row whose price and signal are known. *)
Lemma update_entry_dispatch (row : Entry) (tick : Tick) (p ep : Q) (s : Signal) :
  active row = true ->
  latest_price tick = Some p -> latest_signal tick = Some s ->
  entry_price row = Some ep -> ~ ep == 0 ->
  update_entry row tick
  = match validation_status row with
    | VALIDATING => process_validating_entry (now tick) (load_entry row) p s
    | VALIDATED => process_validated_entry (now tick) (load_entry row) p s
    | INVALID => Ok row
    end.
Proof.
  intros Hact Hp Hs Hep Hne. unfold update_entry.
  rewrite Hact, Hp, Hs. cbn. rewrite Hep, (float_if_truthy_nonzero _ Hne). cbn.
  rewrite (truediv_ok _ _ Hne). reflexivity.
Qed.

(** Runs [process_validated_entry] up to its signal checks, on a loaded
    row whose entry price [ep] and peak [pk] are set and non-zero. *)
Ltac run_validated row pk p ep Hpk Hnz Hep Hne :=
  unfold process_validated_entry; cbn;
  rewrite Hpk, Hep, (float_if_truthy_nonzero _ Hnz), (float_if_truthy_nonzero _ Hne);
  cbn; unfold update_peak, Py.max in *;
  destruct (Qltb pk p) eqn:?; cbn;
  rewrite !(truediv_ok _ _ Hne); cbn.

(** What each check does when its condition is known. *)
Lemma check_exit_1_fires (now : Z) (x p : Q) (e : Entry) :
  0 < x -> p <= x -> exit_1_hit e = false ->
  check_exit_1 now x p e
  = e |> set_exit_1_hit true |> set_exit_1_datetime (Some now)
      |> set_exit_1_price (Some p) |> set_exit_status EXIT_1.
Proof.
  intros Hx Hp Hhit. unfold check_exit_1.
  apply Qltb_lt in Hx. apply Qle_bool_iff in Hp. rewrite Hx, Hp, Hhit.
  reflexivity.
Qed.

Lemma check_exit_2_fires (now : Z) (x p : Q) (e : Entry) :
  0 < x -> p <= x -> exit_2_hit e = false ->
  check_exit_2 now x p e
  = e |> set_exit_2_hit true |> set_exit_2_datetime (Some now)
      |> set_exit_2_price (Some p) |> set_exit_status EXIT_2.
Proof.
  intros Hx Hp Hhit. unfold check_exit_2.
  apply Qltb_lt in Hx. apply Qle_bool_iff in Hp. rewrite Hx, Hp, Hhit.
  reflexivity.
Qed.

Lemma check_exit_3_fires (now : Z) (x p : Q) (e : Entry) :
  0 < x -> p <= x -> exit_3_hit e = false ->
  check_exit_3 now x p e
  = e |> set_exit_3_hit true |> set_exit_3_datetime (Some now)
      |> set_exit_3_price (Some p) |> set_exit_status EXIT_3.
Proof.
  intros Hx Hp Hhit. unfold check_exit_3.
  apply Qltb_lt in Hx. apply Qle_bool_iff in Hp. rewrite Hx, Hp, Hhit.
  reflexivity.
Qed.

Lemma check_exit_2_skips (now : Z) (x p : Q) (e : Entry) :
  exit_2_hit e = true -> check_exit_2 now x p e = e.
Proof.
  intros Hhit. unfold check_exit_2. rewrite Hhit, andb_false_r. reflexivity.
Qed.

Lemma check_exit_3_skips (now : Z) (x p : Q) (e : Entry) :
  (0 < x -> x < p) -> check_exit_3 now x p e = e.
Proof.
  intros Hx. unfold check_exit_3.
  destruct (Qltb 0 x) eqn:E; [|reflexivity].
  apply Qltb_lt, Hx, Qle_bool_gt in E. rewrite E. reflexivity.
Qed.

Lemma check_final_exit_skips (now : Z) (s : Signal) (p pct : Q) (e : Entry) :
  exit_3_hit e = false -> check_final_exit now s p pct e = e.
Proof. intros Hhit. unfold check_final_exit. rewrite Hhit. reflexivity. Qed.

(** The columns left alone by the first steps of the exit tracking. *)
Lemma store_trailing_stop_frame (x : Q) (e : Entry) :
  let e' := store_trailing_stop x e in
  exit_1_hit e' = exit_1_hit e /\ exit_2_hit e' = exit_2_hit e
  /\ exit_3_hit e' = exit_3_hit e /\ active e' = active e
  /\ exit_status e' = exit_status e.
Proof. unfold store_trailing_stop. destruct (Qltb 0 x); cbn; auto. Qed.

Lemma check_exit_1_frame (now : Z) (x p : Q) (e : Entry) :
  let e' := check_exit_1 now x p e in
  exit_2_hit e' = exit_2_hit e /\ exit_3_hit e' = exit_3_hit e
  /\ active e' = active e.
Proof. unfold check_exit_1. split_ifs; cbn; auto. Qed.

Lemma recovery_keeps_hit (row : Entry) (tick : Tick) (p ep pk : Q) (s : Signal)
    (exit1 exit2 exit3 : Q) :
  active row = true -> validation_status row = VALIDATED ->
  latest_price tick = Some p -> latest_signal tick = Some s ->
  entry_price row = Some ep -> peak_price row = Some pk -> ~ pk == 0 ->
  s <> SELL -> s <> CAUTION ->
  exit_2_hit row = true -> exit_3_hit row = false ->
  calculate_exit_levels ep (Py.max pk p) = Ok (exit1, exit2, exit3) ->
  exit2 < p ->
  exists row', update_entry row tick = Ok row'
               /\ exit_status row' = EXIT_1
               /\ recovery_attempt row' = true
               /\ exit_2_hit row' = true
               /\ active row' = true.
Proof.
  intros Hact Hval Hp Hs Hep Hpk Hnz Hsell Hcaution H2 H3 Hlevels Hrec.
  pose proof (exit_levels_nonzero _ _ _ Hlevels) as Hne.
  rewrite (update_entry_dispatch row tick p ep s) by assumption. rewrite Hval.
  assert (Hx3 : 0 < exit3 -> exit3 < p).
  { intros E. destruct (exit_levels_ordered _ _ _ _ _ Hlevels E). lra. }
  apply Qltb_lt in Hrec.
  run_validated row pk p ep Hpk Hnz Hep Hne;
    rewrite (bool_decide_eq_false_2 _ Hsell), (bool_decide_eq_false_2 _ Hcaution);
    rewrite Hlevels; cbn;
    match goal with
    | |- context [check_exit_1 ?n ?x ?q (store_trailing_stop ?y ?e)] =>
        pose proof (store_trailing_stop_frame y e) as (_ & F2 & F3 & Fa & _);
        pose proof (check_exit_1_frame n x q (store_trailing_stop y e))
          as (G2 & G3 & Ga);
        cbn in F2, F3, Fa; rewrite F2 in G2; rewrite F3 in G3; rewrite Fa in Ga;
        set (e3 := check_exit_1 n x q (store_trailing_stop y e)) in *
    end;
    rewrite (check_exit_2_skips _ _ _ e3) by congruence;
    rewrite (check_exit_3_skips _ _ _ e3) by assumption;
    (eexists; split; [reflexivity|]);
    unfold check_recovery; rewrite G2, G3, H2, H3, Hrec; cbn;
    rewrite check_final_exit_skips by (cbn; congruence);
    cbn; rewrite G2, Ga; auto.
Qed.

(** *** The peak and the maximum profit *)

Lemma same_peak_refl (e : Entry) : same_peak e e.
Proof. unfold same_peak. auto. Qed.

Lemma same_peak_trans (a b c : Entry) :
  same_peak a b -> same_peak b c -> same_peak a c.
Proof. unfold same_peak. intros [-> ->] [-> ->]. auto. Qed.

Ltac frame_peak := unfold same_peak; split_ifs; cbn; auto.

Lemma close_peak (now : Z) (r : ExitReason) (p pct : Q) (e : Entry) :
  same_peak e (close now r p pct e).
Proof. unfold close. frame_peak. Qed.

Lemma store_trailing_stop_peak (x : Q) (e : Entry) :
  same_peak e (store_trailing_stop x e).
Proof. unfold store_trailing_stop. frame_peak. Qed.

Lemma check_exit_1_peak (now : Z) (x p : Q) (e : Entry) :
  same_peak e (check_exit_1 now x p e).
Proof. unfold check_exit_1. frame_peak. Qed.

Lemma check_exit_2_peak (now : Z) (x p : Q) (e : Entry) :
  same_peak e (check_exit_2 now x p e).
Proof. unfold check_exit_2. frame_peak. Qed.

Lemma check_exit_3_peak (now : Z) (x p : Q) (e : Entry) :
  same_peak e (check_exit_3 now x p e).
Proof. unfold check_exit_3. frame_peak. Qed.

Lemma check_recovery_peak (now : Z) (x1 x2 x3 p : Q) (e : Entry) :
  same_peak e (check_recovery now x1 x2 x3 p e).
Proof. unfold check_recovery. frame_peak. Qed.

Lemma check_final_exit_peak (now : Z) (s : Signal) (p pct : Q) (e : Entry) :
  same_peak e (check_final_exit now s p pct e).
Proof. unfold check_final_exit, close. frame_peak. Qed.

#[local] Hint Resolve same_peak_refl close_peak store_trailing_stop_peak
  check_exit_1_peak check_exit_2_peak check_exit_3_peak check_recovery_peak
  check_final_exit_peak : lifecycle.

Ltac chain_peak :=
  repeat first
    [ solve [auto with lifecycle]
    | eapply same_peak_trans; [|solve [auto with lifecycle]] ].

Lemma update_peak_pair (now : Z) (pk p : Q) (e : Entry) :
  update_peak now pk p e = (Py.max pk p, snd (update_peak now pk p e)).
Proof. unfold update_peak, Py.max. destruct (Qltb pk p); reflexivity. Qed.

Lemma update_peak_snd (now : Z) (pk p : Q) (e : Entry) :
  peak_price e = Some pk ->
  let e1 := snd (update_peak now pk p e) in
  peak_price e1 = Some (Py.max pk p)
  /\ max_profit_pct e1 = max_profit_pct e
  /\ recovery_low_price e1 = recovery_low_price e.
Proof.
  intros Hpk. unfold update_peak, Py.max. destruct (Qltb pk p); cbn; auto.
Qed.

Lemma max_profit_grows (old : option Q) (m : Q) :
  or_zero old <= or_zero (Some (Py.max (or_zero old) m)).
Proof. rewrite (or_zero_eq (Some _)). simpl. apply max_ge_l. Qed.

Lemma process_validated_entry_grows (now : Z) (e : Entry) (p : Q) (s : Signal)
    (e' : Entry) :
  process_validated_entry now e p s = Ok e' ->
  exists pk, peak_price e = Some pk
             /\ peak_price e' = Some (Py.max pk p)
             /\ or_zero (max_profit_pct e) <= or_zero (max_profit_pct e').
Proof.
  unfold process_validated_entry.
  destruct (peak_price e) as [pk|] eqn:Hpk; [|discriminate]. cbn.
  rewrite update_peak_pair.
  destruct (update_peak_snd now pk p e Hpk) as (Hpeak & Hmax & _).
  set (e1 := snd (update_peak now pk p e)) in *.
  destruct (entry_price e) as [ep|]; [|discriminate]. cbn.
  destruct (truediv (p - ep) ep); [|discriminate]. cbn.
  destruct (truediv (Py.max pk p - ep) ep); [|discriminate]. cbn.
  intros H. exists pk. split; [reflexivity|]. revert H.
  destruct (bool_decide (s = SELL)); [|destruct (bool_decide (s = CAUTION))].
  - intros [= <-]. cbn. rewrite Hpeak, Hmax. split; [reflexivity | lra].
  - intros [= <-]. cbn. rewrite Hpeak, Hmax. split; [reflexivity | lra].
  - destruct (calculate_exit_levels ep (Py.max pk p)) as [[[x1 x2] x3]|];
      [|discriminate].
    cbn. intros [= <-]. cbn.
    match goal with
    | |- peak_price ?x = _ /\ _ =>
        assert (F : same_peak e1 x) by chain_peak; destruct F as [F1 F2];
        rewrite F1, F2, Hpeak, Hmax
    end.
    split; [reflexivity | apply max_profit_grows].
Qed.

Lemma process_validating_entry_grows (now : Z) (e : Entry) (p : Q) (s : Signal)
    (e' : Entry) :
  process_validating_entry now e p s = Ok e' ->
  exists pk, peak_price e = Some pk
             /\ peak_price e' = Some (Py.max pk p)
             /\ or_zero (max_profit_pct e) <= or_zero (max_profit_pct e').
Proof.
  unfold process_validating_entry.
  destruct (classify_timeframe (timeframe e)) as [tf|]; [|discriminate]. cbn.
  destruct (peak_price e) as [pk|] eqn:Hpk; [|discriminate]. cbn.
  rewrite update_peak_pair.
  destruct (update_peak_snd now pk p e Hpk) as (Hpeak & Hmax & Hlow).
  set (e1 := snd (update_peak now pk p e)) in *.
  destruct (entry_price e) as [ep|]; [|discriminate]. cbn.
  repeat run_div.
  destruct (recovery_low_price e1) as [low|] eqn:Hlow1; cbn;
    try destruct (Qltb p low); cbn; rewrite ?Hlow1; cbn;
    repeat run_div;
    intros [= <-]; exists pk; (split; [reflexivity|]);
    unfold invalidate; split_ifs; cbn; rewrite Hpeak, Hmax;
    (split; [reflexivity | apply max_profit_grows]).
Qed.

Lemma peak_le_refl (x : option Q) : peak_le x x.
Proof. destruct x; simpl; [lra | exact I]. Qed.

Lemma peak_le_trans (x y z : option Q) :
  peak_le x y -> peak_le y z -> peak_le x z.
Proof. destruct x, y, z; simpl; try tauto; lra. Qed.

(** One round on a stored row: the peak stays, or becomes the latest
    price when that price is strictly greater; the maximum profit, read
    as the code reads it, does not decrease. *)
Lemma update_entry_grows (row : Entry) (tick : Tick) (row' : Entry) :
  update_entry row tick = Ok row' ->
  (peak_price row' = peak_price row
   \/ exists pk p, peak_price row = Some pk /\ latest_price tick = Some p
                   /\ pk < p /\ peak_price row' = Some p)
  /\ or_zero (max_profit_pct row) <= or_zero (max_profit_pct row').
Proof.
  assert (Hskip : forall r : Entry,
            (peak_price r = peak_price r
             \/ exists pk p, peak_price r = Some pk /\ latest_price tick = Some p
                             /\ pk < p /\ peak_price r = Some p)
            /\ or_zero (max_profit_pct r) <= or_zero (max_profit_pct r)).
  { intros r. split; [left; reflexivity | lra]. }
  assert (Hrun : forall pk p,
            peak_price (load_entry row) = Some pk ->
            latest_price tick = Some p ->
            peak_price row' = Some (Py.max pk p) ->
            or_zero (max_profit_pct (load_entry row))
              <= or_zero (max_profit_pct row') ->
            (peak_price row' = peak_price row
             \/ exists pk p, peak_price row = Some pk /\ latest_price tick = Some p
                             /\ pk < p /\ peak_price row' = Some p)
            /\ or_zero (max_profit_pct row) <= or_zero (max_profit_pct row')).
  { intros pk p Hpk Hp Hpeak Hmax. cbn in Hpk, Hmax.
    apply float_if_truthy_Some in Hpk as [Hpk _].
    rewrite or_zero_float_if_truthy in Hmax. split; [|exact Hmax].
    rewrite Hpeak, Hpk. unfold Py.max. destruct (Qltb pk p) eqn:E.
    - right. exists pk, p. apply Qltb_lt in E. auto.
    - left. reflexivity. }
  unfold update_entry.
  destruct (active row); cbn; [|intros [= <-]; apply Hskip].
  destruct (latest_price tick) as [p|] eqn:Hp; [|intros [= <-]; apply Hskip].
  destruct (latest_signal tick) as [s|]; [|intros [= <-]; apply Hskip].
  destruct (float_if_truthy (entry_price row)) as [ep|]; [|discriminate]. cbn.
  destruct (truediv (p - ep) ep); [|discriminate]. cbn.
  destruct (validation_status row).
  - intros H. apply process_validating_entry_grows in H as (pk & Hpk & Hpeak & Hmax).
    apply (Hrun pk p); auto.
  - intros H. apply process_validated_entry_grows in H as (pk & Hpk & Hpeak & Hmax).
    apply (Hrun pk p); auto.
  - intros [= <-]. apply Hskip.
Qed.

(** C7. The peak price and the maximum profit never decrease. In one
    round of the updater the stored peak either stays as it is or becomes
    the latest price, and the latter only when that price is strictly
    greater; the maximum profit after the round is at least the one before
    (an unset value counting as 0.0, which is how the code reads it). The
    same holds of the two processing functions, whose new peak is the
    larger of the old peak and the current price, and over any sequence of
    rounds. *)
Theorem peak_and_max_profit_never_decrease :
  (forall (row : Entry) (tick : Tick) (row' : Entry),
     update_entry row tick = Ok row' ->
     (peak_price row' = peak_price row
      \/ exists pk p, peak_price row = Some pk /\ latest_price tick = Some p
                      /\ pk < p /\ peak_price row' = Some p)
     /\ or_zero (max_profit_pct row) <= or_zero (max_profit_pct row'))
  /\ (forall (now : Z) (entry : Entry) (current_price : Q)
             (current_signal : Signal) (entry' : Entry),
        process_validating_entry now entry current_price current_signal = Ok entry'
        \/ process_validated_entry now entry current_price current_signal = Ok entry' ->
        exists pk, peak_price entry = Some pk
                   /\ peak_price entry' = Some (Py.max pk current_price)
                   /\ pk <= Py.max pk current_price
                   /\ or_zero (max_profit_pct entry)
                      <= or_zero (max_profit_pct entry'))
  /\ (forall (row : Entry) (ticks : list Tick) (row' : Entry),
        run_ticks row ticks = Ok row' ->
        peak_le (peak_price row) (peak_price row')
        /\ or_zero (max_profit_pct row) <= or_zero (max_profit_pct row')).
Proof.
  split; [exact update_entry_grows|]. split.
  - intros now entry p s entry' [H|H];
      [apply process_validating_entry_grows in H
      |apply process_validated_entry_grows in H];
      destruct H as (pk & Hpk & Hpeak & Hmax); exists pk;
      repeat split; auto using max_ge_l.
  - intros row ticks. revert row.
    induction ticks as [|tick rest IH]; intros row row'; simpl.
    + intros [= <-]. split; [apply peak_le_refl | lra].
    + destruct (update_entry row tick) as [mid|] eqn:Hstep; [|discriminate].
      cbn. intros Hrest.
      destruct (update_entry_grows _ _ _ Hstep) as [Hpeak Hmax].
      destruct (IH _ _ Hrest) as [IHpeak IHmax].
      split; [|lra].
      apply (peak_le_trans _ (peak_price mid)); [|exact IHpeak].
      destruct Hpeak as [-> | (pk & p & -> & _ & Hlt & ->)];
        [apply peak_le_refl | simpl; lra].
Qed.

Lemma peak_and_max_profit_never_decrease_witness :
  (exists row',
     update_entry (opened "1h" 100)
       {| now := 1; latest_price := Some 103; latest_signal := Some BUY |}
     = Ok row'
     /\ or_zero (Some 0.0) <= or_zero (max_profit_pct row'))
  /\ (exists entry',
        process_validated_entry 2 validated_at_103 101 BUY = Ok entry'
        /\ exists pk, peak_price entry' = Some (Py.max pk 101))
  /\ (exists row',
        run_ticks (opened "1h" 100)
          [ {| now := 1; latest_price := Some 103; latest_signal := Some BUY |};
            {| now := 2; latest_price := Some 101; latest_signal := Some BUY |} ]
        = Ok row'
        /\ peak_le (Some 100) (peak_price row')
        /\ or_zero (Some 0.0) <= or_zero (max_profit_pct row')).
Proof.
  split; [|split].
  - eexists. split; [vm_compute; reflexivity|].
    apply (proj1 peak_and_max_profit_never_decrease (opened "1h" 100)
             {| now := 1; latest_price := Some 103; latest_signal := Some BUY |}).
    vm_compute. reflexivity.
  - eexists. split; [vm_compute; reflexivity|].
    edestruct (proj1 (proj2 peak_and_max_profit_never_decrease)
                 2%Z validated_at_103 101 BUY) as (pk & _ & Hpeak & _);
      [right; vm_compute; reflexivity|].
    exists pk. exact Hpeak.
  - eexists. split; [vm_compute; reflexivity|].
    apply (proj2 (proj2 peak_and_max_profit_never_decrease)
             (opened "1h" 100)
             [ {| now := 1; latest_price := Some 103; latest_signal := Some BUY |};
               {| now := 2; latest_price := Some 101; latest_signal := Some BUY |} ]).
    vm_compute. reflexivity.
Defined.

(** C6. The exit flags are sticky. Over any sequence of rounds of the
    updater a flag that is set stays set. In particular the recovery of a
    validated entry whose second level was hit and whose third was not:
    when the signal is neither SELL nor CAUTION and the price is above the
    second level, the round moves [exit_status] to EXIT-1 and sets
    [recovery_attempt], and [exit_2_hit] is still set. *)
Theorem exit_hit_flags_are_sticky :
  (forall (row : Entry) (ticks : list Tick) (row' : Entry),
     run_ticks row ticks = Ok row' ->
     (exit_1_hit row = true -> exit_1_hit row' = true)
     /\ (exit_2_hit row = true -> exit_2_hit row' = true)
     /\ (exit_3_hit row = true -> exit_3_hit row' = true))
  /\ (forall (row : Entry) (tick : Tick) (p ep pk : Q) (s : Signal)
             (exit1 exit2 exit3 : Q),
        active row = true -> validation_status row = VALIDATED ->
        latest_price tick = Some p -> latest_signal tick = Some s ->
        entry_price row = Some ep -> peak_price row = Some pk -> ~ pk == 0 ->
        s <> SELL -> s <> CAUTION ->
        exit_2_hit row = true -> exit_3_hit row = false ->
        calculate_exit_levels ep (Py.max pk p) = Ok (exit1, exit2, exit3) ->
        exit2 < p ->
        exists row', update_entry row tick = Ok row'
                     /\ exit_status row' = EXIT_1
                     /\ recovery_attempt row' = true
                     /\ exit_2_hit row' = true
                     /\ active row' = true).
Proof.
  split.
  - intros row ticks row' H. exact (run_ticks_hits _ _ _ H).
  - exact recovery_keeps_hit.
Qed.

Lemma exit_hit_flags_are_sticky_witness :
  (exists row',
     run_ticks at_exit_2
       [ {| now := 3; latest_price := Some 101; latest_signal := Some BUY |};
         {| now := 4; latest_price := Some 104; latest_signal := Some WATCH |} ]
     = Ok row'
     /\ exit_1_hit row' = true /\ exit_2_hit row' = true)
  /\ (exists row',
        update_entry at_exit_2
          {| now := 3; latest_price := Some 101; latest_signal := Some BUY |}
        = Ok row'
        /\ exit_status row' = EXIT_1 /\ recovery_attempt row' = true
        /\ exit_2_hit row' = true /\ active row' = true).
Proof.
  split.
  - eexists. split; [vm_compute; reflexivity|].
    destruct (proj1 exit_hit_flags_are_sticky at_exit_2
                [ {| now := 3; latest_price := Some 101; latest_signal := Some BUY |};
                  {| now := 4; latest_price := Some 104; latest_signal := Some WATCH |} ]
                _ ltac:(vm_compute; reflexivity)) as (H1 & H2 & _).
    split; [apply H1 | apply H2]; reflexivity.
  - eapply (proj2 exit_hit_flags_are_sticky at_exit_2
              {| now := 3; latest_price := Some 101; latest_signal := Some BUY |}
              101 100 103 BUY);
      [ reflexivity | reflexivity | reflexivity | reflexivity | reflexivity
      | reflexivity | vm_compute; discriminate | discriminate | discriminate
      | reflexivity | reflexivity | vm_compute; reflexivity
      | vm_compute; reflexivity ].
Defined.

(** *** Exits forced by the signal *)

Lemma validated_signal_exit (row : Entry) (tick : Tick) (p ep pk : Q) (s : Signal) :
  active row = true -> validation_status row = VALIDATED ->
  latest_price tick = Some p -> latest_signal tick = Some s ->
  entry_price row = Some ep -> ~ ep == 0 ->
  peak_price row = Some pk -> ~ pk == 0 ->
  s = SELL \/ s = CAUTION ->
  exists row', update_entry row tick = Ok row'
    /\ exit_status row' = EXITED /\ active row' = false
    /\ exit_reason row'
       = Some (if bool_decide (s = SELL) then SELL_SIGNAL else CAUTION_SIGNAL)
    /\ exit_price row' = Some p
    /\ exit_1_hit row' = exit_1_hit row
    /\ exit_2_hit row' = exit_2_hit row
    /\ exit_3_hit row' = exit_3_hit row
    /\ trailing_stop_active row' = trailing_stop_active row
    /\ recovery_attempt row' = recovery_attempt row.
Proof.
  intros Hact Hval Hp Hs Hep Hne Hpk Hnz Hsig.
  rewrite (update_entry_dispatch row tick p ep s) by assumption. rewrite Hval.
  run_validated row pk p ep Hpk Hnz Hep Hne;
    destruct Hsig as [-> | ->]; cbn;
    (eexists; split; [reflexivity|]); cbn; repeat split; reflexivity.
Qed.

Lemma validating_caution (row : Entry) (tick : Tick) (p ep pk : Q) (tf : TfType) :
  active row = true -> validation_status row = VALIDATING ->
  latest_price tick = Some p -> latest_signal tick = Some CAUTION ->
  entry_price row = Some ep -> ~ ep == 0 ->
  peak_price row = Some pk -> ~ pk == 0 ->
  classify_timeframe (timeframe row) = Ok tf ->
  exists row', update_entry row tick = Ok row'
    /\ (profit_pct ep (Py.max pk p) < 1 ->
        validation_status row' = INVALID /\ exit_status row' = EXITED
        /\ active row' = false)
    /\ (1 <= profit_pct ep (Py.max pk p) ->
        validation_status row' = VALIDATED /\ exit_status row' = ACTIVE
        /\ active row' = true).
Proof.
  intros Hact Hval Hp Hs Hep Hne Hpk Hnz Htf.
  rewrite (update_entry_dispatch row tick p ep CAUTION) by assumption.
  rewrite Hval. unfold process_validating_entry, profit_pct. cbn.
  rewrite Htf, Hpk, Hep, (float_if_truthy_nonzero _ Hnz),
    (float_if_truthy_nonzero _ Hne). cbn.
  rewrite update_peak_pair.
  unfold update_peak. destruct (Qltb pk p) eqn:Epk; cbn;
    rewrite ?(truediv_ok _ _ Hne); cbn;
    destruct (float_if_truthy (recovery_low_price row)) as [low|] eqn:Hlow; cbn;
    try destruct (Qltb p low); cbn; rewrite ?Hlow; cbn;
    rewrite ?(truediv_ok _ _ Hne); cbn;
    (eexists; split; [reflexivity|]);
    unfold intraday_validation_pct, swing_validation_pct, invalidate;
    destruct tf;
    match goal with
    | |- context [Qle_bool 1.0 ?x] =>
        destruct (Qle_bool 1.0 x) eqn:E;
        [apply Qle_bool_iff in E | apply Qle_bool_gt in E]
    end;
    (split; intros Hpct; [try (exfalso; lra) | try (exfalso; lra)]);
    rewrite ?(bool_decide_eq_true_2 (CAUTION = CAUTION) eq_refl);
    split_ifs; cbn; rewrite ?Hact; auto.
Qed.

(** C1 (as amended). For an active, validated entry a SELL or CAUTION
    signal closes the entry in that round (EXITED, inactive, with the
    matching reason and the exit price), before any exit level is looked
    at: the hit flags, the trailing stop and the recovery flag are as they
    were. For an entry that is still validating the signal comes after the
    validation and price-drop checks: under a CAUTION signal the round
    ends the entry (INVALID, EXITED, inactive) when the peak profit is
    below the validation threshold of 1%, and validates it, leaving it
    active, otherwise. *)
Theorem signal_exit_by_validation_state
    (row : Entry) (tick : Tick) (p ep pk : Q) (s : Signal) :
  active row = true ->
  latest_price tick = Some p -> latest_signal tick = Some s ->
  entry_price row = Some ep -> ~ ep == 0 ->
  peak_price row = Some pk -> ~ pk == 0 ->
  (validation_status row = VALIDATED -> s = SELL \/ s = CAUTION ->
   exists row', update_entry row tick = Ok row'
     /\ exit_status row' = EXITED /\ active row' = false
     /\ exit_reason row'
        = Some (if bool_decide (s = SELL) then SELL_SIGNAL else CAUTION_SIGNAL)
     /\ exit_price row' = Some p
     /\ exit_1_hit row' = exit_1_hit row
     /\ exit_2_hit row' = exit_2_hit row
     /\ exit_3_hit row' = exit_3_hit row
     /\ trailing_stop_active row' = trailing_stop_active row
     /\ recovery_attempt row' = recovery_attempt row)
  /\ (validation_status row = VALIDATING -> s = CAUTION ->
      forall tf, classify_timeframe (timeframe row) = Ok tf ->
      exists row', update_entry row tick = Ok row'
        /\ (profit_pct ep (Py.max pk p) < 1 ->
            validation_status row' = INVALID /\ exit_status row' = EXITED
            /\ active row' = false)
        /\ (1 <= profit_pct ep (Py.max pk p) ->
            validation_status row' = VALIDATED /\ exit_status row' = ACTIVE
            /\ active row' = true)).
Proof.
  intros Hact Hp Hs Hep Hne Hpk Hnz. split.
  - intros Hval Hsig. apply (validated_signal_exit row tick p ep pk s); assumption.
  - intros Hval -> tf Htf.
    apply (validating_caution row tick p ep pk tf); assumption.
Qed.

Lemma signal_exit_by_validation_state_witness :
  (exists row',
     update_entry at_exit_2
       {| now := 9; latest_price := Some 102; latest_signal := Some SELL |}
     = Ok row'
     /\ exit_status row' = EXITED /\ active row' = false)
  /\ (exists row',
        update_entry (opened "1h" 100)
          {| now := 9; latest_price := Some 100; latest_signal := Some CAUTION |}
        = Ok row'
        /\ validation_status row' = INVALID /\ exit_status row' = EXITED
        /\ active row' = false)
  /\ (exists row',
        update_entry (opened "1h" 100)
          {| now := 9; latest_price := Some 102; latest_signal := Some CAUTION |}
        = Ok row'
        /\ validation_status row' = VALIDATED /\ exit_status row' = ACTIVE
        /\ active row' = true).
Proof.
  assert (N100 : ~ 100 == 0) by (vm_compute; discriminate).
  assert (N103 : ~ 103 == 0) by (vm_compute; discriminate).
  split; [|split].
  - destruct (proj1 (signal_exit_by_validation_state at_exit_2
                       {| now := 9; latest_price := Some 102;
                          latest_signal := Some SELL |}
                       102 100 103 SELL eq_refl eq_refl eq_refl eq_refl N100
                       eq_refl N103) eq_refl (or_introl eq_refl))
      as (row' & Hrun & Hstatus & Hactive & _).
    exists row'. auto.
  - destruct (proj2 (signal_exit_by_validation_state (opened "1h" 100)
                       {| now := 9; latest_price := Some 100;
                          latest_signal := Some CAUTION |}
                       100 100 100 CAUTION eq_refl eq_refl eq_refl eq_refl N100
                       eq_refl N100) eq_refl eq_refl Intraday eq_refl)
      as (row' & Hrun & Hbelow & _).
    exists row'. split; [exact Hrun|]. apply Hbelow. vm_compute. reflexivity.
  - destruct (proj2 (signal_exit_by_validation_state (opened "1h" 100)
                       {| now := 9; latest_price := Some 102;
                          latest_signal := Some CAUTION |}
                       102 100 100 CAUTION eq_refl eq_refl eq_refl eq_refl N100
                       eq_refl N100) eq_refl eq_refl Intraday eq_refl)
      as (row' & Hrun & _ & Habove).
    exists row'. split; [exact Hrun|]. apply Habove. vm_compute. discriminate.
Defined.

(** C1 (as stated) fails. An entry that is still validating is untouched
    by a SELL signal: opened at 100 with the price still at 100, it stays
    VALIDATING and active. Under a CAUTION signal with the price at 102 it
    is validated, not exited. *)
Lemma sell_while_validating_keeps_entry :
  (exists row',
     update_entry (opened "1h" 100)
       {| now := 9; latest_price := Some 100; latest_signal := Some SELL |}
     = Ok row'
     /\ validation_status row' = VALIDATING /\ exit_status row' = ACTIVE
     /\ active row' = true)
  /\ (exists row',
        update_entry (opened "1h" 100)
          {| now := 9; latest_price := Some 102; latest_signal := Some CAUTION |}
        = Ok row'
        /\ validation_status row' = VALIDATED /\ exit_status row' = ACTIVE
        /\ active row' = true)
  /\ ~ (forall (row : Entry) (tick : Tick) (s : Signal) (row' : Entry),
          active row = true -> latest_signal tick = Some s ->
          s = CAUTION \/ s = SELL ->
          update_entry row tick = Ok row' ->
          exit_status row' = EXITED /\ active row' = false).
Proof.
  split; [|split].
  - eexists. split; [vm_compute; reflexivity|]. repeat split.
  - eexists. split; [vm_compute; reflexivity|]. repeat split.
  - intros H.
    destruct (update_entry (opened "1h" 100)
                {| now := 9; latest_price := Some 100;
                   latest_signal := Some SELL |}) as [row'|] eqn:Hrun;
      [|vm_compute in Hrun; discriminate].
    destruct (H (opened "1h" 100)
                {| now := 9; latest_price := Some 100;
                   latest_signal := Some SELL |}
                SELL row' eq_refl eq_refl (or_intror eq_refl) Hrun)
      as [Hstatus _].
    vm_compute in Hrun. injection Hrun as <-. discriminate Hstatus.
Qed.

(** *** Crossing the third level *)

Lemma check_recovery_skips (now : Z) (x1 x2 x3 p : Q) (e : Entry) :
  exit_1_hit e = true -> exit_2_hit e = true -> exit_3_hit e = true ->
  p <= x3 -> check_recovery now x1 x2 x3 p e = e.
Proof.
  intros H1 H2 H3 Hp. unfold check_recovery. apply Qltb_ge in Hp.
  rewrite H1, H2, H3, Hp. reflexivity.
Qed.

Lemma store_trailing_stop_on (x : Q) (e : Entry) :
  0 < x ->
  store_trailing_stop x e
  = e |> set_trailing_stop_price (Some x) |> set_trailing_stop_active true.
Proof. intros Hx. unfold store_trailing_stop. apply Qltb_lt in Hx. rewrite Hx. reflexivity. Qed.

(** Evaluates the comparisons of two given signals. *)
Ltac decide_signals :=
  repeat match goal with
         | |- context [bool_decide (?a = ?b)] =>
             let v := eval vm_compute in (bool_decide (a = b)) in
             change (bool_decide (a = b)) with v
         end.

(** C10 (as amended). A validated, active entry with no hit flag set,
    under a signal that is neither SELL nor CAUTION: one round whose price
    is at or below the third level (itself positive) sets the three hit
    flags in that round, each with the price of the round. The status is
    then EXIT-3 and the entry stays active, unless the signal is WATCH:
    the same round then closes the entry (EXITED, reason EXIT3 WATCH). *)
Theorem third_level_crossed_in_one_round
    (row : Entry) (tick : Tick) (p ep pk : Q) (s : Signal)
    (exit1 exit2 exit3 : Q) :
  active row = true -> validation_status row = VALIDATED ->
  latest_price tick = Some p -> latest_signal tick = Some s ->
  entry_price row = Some ep -> peak_price row = Some pk -> ~ pk == 0 ->
  exit_1_hit row = false -> exit_2_hit row = false -> exit_3_hit row = false ->
  calculate_exit_levels ep (Py.max pk p) = Ok (exit1, exit2, exit3) ->
  0 < exit3 -> p <= exit3 ->
  s <> SELL -> s <> CAUTION ->
  exists row', update_entry row tick = Ok row'
    /\ exit_1_hit row' = true /\ exit_2_hit row' = true /\ exit_3_hit row' = true
    /\ exit_1_price row' = Some p /\ exit_2_price row' = Some p
    /\ exit_3_price row' = Some p
    /\ (s <> WATCH -> exit_status row' = EXIT_3 /\ active row' = true)
    /\ (s = WATCH -> exit_status row' = EXITED /\ active row' = false
                     /\ exit_reason row' = Some (EXIT3 WATCH)).
Proof.
  intros Hact Hval Hp Hs Hep Hpk Hnz H1 H2 H3 Hlevels Hpos Hcross Hsell Hcaution.
  pose proof (exit_levels_nonzero _ _ _ Hlevels) as Hne.
  destruct (exit_levels_ordered _ _ _ _ _ Hlevels Hpos) as [H32 H21].
  rewrite (update_entry_dispatch row tick p ep s) by assumption. rewrite Hval.
  run_validated row pk p ep Hpk Hnz Hep Hne;
    rewrite (bool_decide_eq_false_2 _ Hsell), (bool_decide_eq_false_2 _ Hcaution);
    rewrite Hlevels; cbn;
    rewrite store_trailing_stop_on by lra;
    rewrite check_exit_1_fires by (cbn; first [assumption | lra]);
    rewrite check_exit_2_fires by (cbn; first [assumption | lra]);
    rewrite check_exit_3_fires by (cbn; first [assumption | lra]);
    rewrite check_recovery_skips by (cbn; first [reflexivity | assumption]);
    unfold check_final_exit; cbn;
    (eexists; split; [reflexivity|]);
    destruct s; decide_signals; cbn; rewrite ?Hact;
    repeat split; try reflexivity; try congruence; intros; try congruence.
Qed.

Lemma third_level_crossed_in_one_round_witness :
  (exists row',
     update_entry validated_at_103
       {| now := 5; latest_price := Some 99; latest_signal := Some BUY |}
     = Ok row'
     /\ exit_1_hit row' = true /\ exit_2_hit row' = true
     /\ exit_3_hit row' = true /\ exit_status row' = EXIT_3)
  /\ (exists row',
        update_entry validated_at_103
          {| now := 5; latest_price := Some 99; latest_signal := Some WATCH |}
        = Ok row'
        /\ exit_3_hit row' = true /\ exit_status row' = EXITED).
Proof.
  split.
  - edestruct (third_level_crossed_in_one_round validated_at_103
                 {| now := 5; latest_price := Some 99; latest_signal := Some BUY |}
                 99 100 103 BUY)
      as (row' & Hrun & H1 & H2 & H3 & _ & _ & _ & Hstatus & _);
      [ reflexivity | reflexivity | reflexivity | reflexivity | reflexivity
      | reflexivity | vm_compute; discriminate | reflexivity | reflexivity
      | reflexivity | vm_compute; reflexivity | vm_compute; reflexivity
      | vm_compute; discriminate | discriminate | discriminate | ].
    exists row'. repeat split; try assumption. apply Hstatus. discriminate.
  - edestruct (third_level_crossed_in_one_round validated_at_103
                 {| now := 5; latest_price := Some 99; latest_signal := Some WATCH |}
                 99 100 103 WATCH)
      as (row' & Hrun & _ & _ & H3 & _ & _ & _ & _ & Hstatus);
      [ reflexivity | reflexivity | reflexivity | reflexivity | reflexivity
      | reflexivity | vm_compute; discriminate | reflexivity | reflexivity
      | reflexivity | vm_compute; reflexivity | vm_compute; reflexivity
      | vm_compute; discriminate | discriminate | discriminate | ].
    exists row'. repeat split; try assumption. apply Hstatus. reflexivity.
Defined.

(** C10 (as stated) fails. For the entry validated with a peak of 103,
    whose third level is 99.48015, a round at a price of 99 under a SELL
    signal sets no hit flag and ends at EXITED; under a WATCH signal the
    three flags are set but the round ends at EXITED, not EXIT-3. *)
Lemma third_level_crossed_under_sell :
  (exists row',
     update_entry validated_at_103
       {| now := 5; latest_price := Some 99; latest_signal := Some SELL |}
     = Ok row'
     /\ exit_1_hit row' = false /\ exit_2_hit row' = false
     /\ exit_3_hit row' = false /\ exit_status row' = EXITED)
  /\ (exists row',
        update_entry validated_at_103
          {| now := 5; latest_price := Some 99; latest_signal := Some WATCH |}
        = Ok row'
        /\ exit_1_hit row' = true /\ exit_2_hit row' = true
        /\ exit_3_hit row' = true /\ exit_status row' = EXITED)
  /\ ~ (forall (row : Entry) (tick : Tick) (p ep pk : Q) (s : Signal)
               (exit1 exit2 exit3 : Q) (row' : Entry),
          active row = true -> validation_status row = VALIDATED ->
          latest_price tick = Some p -> latest_signal tick = Some s ->
          entry_price row = Some ep -> peak_price row = Some pk ->
          exit_1_hit row = false -> exit_2_hit row = false ->
          exit_3_hit row = false ->
          calculate_exit_levels ep (Py.max pk p) = Ok (exit1, exit2, exit3) ->
          0 < exit3 -> p <= exit3 ->
          update_entry row tick = Ok row' ->
          exit_1_hit row' = true /\ exit_2_hit row' = true
          /\ exit_3_hit row' = true /\ exit_status row' = EXIT_3).
Proof.
  split; [|split].
  - eexists. split; [vm_compute; reflexivity|]. repeat split.
  - eexists. split; [vm_compute; reflexivity|]. repeat split.
  - intros H.
    destruct (update_entry validated_at_103
                {| now := 5; latest_price := Some 99;
                   latest_signal := Some SELL |}) as [row'|] eqn:Hrun;
      [|vm_compute in Hrun; discriminate].
    edestruct (H validated_at_103
                 {| now := 5; latest_price := Some 99;
                    latest_signal := Some SELL |}
                 99 100 103 SELL)
      as (Hhit & _);
      [ reflexivity | reflexivity | reflexivity | reflexivity | reflexivity
      | reflexivity | reflexivity | reflexivity | reflexivity
      | vm_compute; reflexivity | vm_compute; reflexivity
      | vm_compute; discriminate | exact Hrun | ].
    vm_compute in Hrun. injection Hrun as <-. discriminate Hhit.
Qed.

End LifecycleProps.
